(** * JetStream account resource manager and control plane (server/jetstream.go)

    A shallow embedding of the engine-level quota ledger, the account
    registry, admission control, the message-delete request handler, the
    dynamic configuration and the per-account recovery loop, together with
    the properties stated about them. *)

From Stdlib Require Import ZArith Lia String Ascii List Bool.
From stdpp Require Import base gmap strings list fin_maps.

Local Open Scope Z_scope.
Local Open Scope string_scope.

(** ** Go machine integers

    [int64] values are mathematical integers in [-2^63, 2^63); Go's [int] is
    64 bits wide on the platforms the server targets.  Arithmetic wraps
    around silently, which [wrap64] writes out. *)

Definition int64_min : Z := - 2 ^ 63.
Definition int64_max : Z := 2 ^ 63 - 1.
Definition uint64_max : Z := 2 ^ 64 - 1.

Definition in_int64 (z : Z) : Prop := int64_min <= z <= int64_max.

Definition wrap64 (z : Z) : Z := (z + 2 ^ 63) mod 2 ^ 64 - 2 ^ 63.

Definition add64 (a b : Z) : Z := wrap64 (a + b).
Definition sub64 (a b : Z) : Z := wrap64 (a - b).
Definition mul64 (a b : Z) : Z := wrap64 (a * b).
Definition neg64 (a : Z) : Z := wrap64 (- a).

(** The conversion [uint64(x)] of a signed value. *)
Definition to_uint64 (z : Z) : Z := z mod 2 ^ 64.

(** ** Go standard library functions used by the handlers *)

(** [strings.Split(s, sep)] for a one-byte separator: every occurrence of
    the separator ends a token, so the result always has one more element
    than there are separators (the empty string gives one empty token). *)
Fixpoint Split (s : string) (sep : ascii) : list string :=
  match s with
  | EmptyString => [EmptyString]
  | String c rest =>
      if Ascii.eqb c sep then EmptyString :: Split rest sep
      else match Split rest sep with
           | [] => [String c EmptyString]
           | t :: ts => String c t :: ts
           end
  end.

Fixpoint count_sep (s : string) (sep : ascii) : nat :=
  match s with
  | EmptyString => O
  | String c rest => (if Ascii.eqb c sep then 1 else 0)%nat + count_sep rest sep
  end.

(** [strings.ContainsAny(s, chars)]. *)
Fixpoint ContainsAny (s : string) (chars : list ascii) : bool :=
  match s with
  | EmptyString => false
  | String c rest => existsb (Ascii.eqb c) chars || ContainsAny rest chars
  end.

Definition is_digit (c : ascii) : bool :=
  let n := Z.of_nat (nat_of_ascii c) in Z.leb 48 n && Z.leb n 57.

Definition digit_val (c : ascii) : Z := Z.of_nat (nat_of_ascii c) - 48.

(** The two error kinds of [strconv.NumError]. *)
Inductive NumErr := ErrSyntax | ErrRange.

(** [strconv.ParseUint(s, 10, 64)], the digit loop: a byte that is not a
    decimal digit is a syntax error with value 0; once the accumulator can
    no longer be multiplied by ten or the sum exceeds the largest value the
    loop returns the largest value with a range error, without looking at
    the bytes that follow. *)
Fixpoint ParseUint_loop (s : string) (n : Z) : Z * option NumErr :=
  match s with
  | EmptyString => (n, None)
  | String c rest =>
      if negb (is_digit c) then (0, Some ErrSyntax)
      else if Z.leb (uint64_max / 10 + 1) n then (uint64_max, Some ErrRange)
      else let n1 := n * 10 + digit_val c in
           if Z.ltb uint64_max n1 then (uint64_max, Some ErrRange)
           else ParseUint_loop rest n1
  end.

Definition ParseUint (s : string) : Z * option NumErr :=
  match s with
  | EmptyString => (0, Some ErrSyntax)
  | _ => ParseUint_loop s 0
  end.

(** [strconv.ParseInt(s, 10, 0)]: optional sign, then [ParseUint]; a syntax
    error gives 0, a magnitude that does not fit gives the nearest bound
    together with a range error. *)
Definition ParseInt (s : string) : Z * option NumErr :=
  match s with
  | EmptyString => (0, Some ErrSyntax)
  | String c rest =>
      let neg := Ascii.eqb c "-" in
      let body := if Ascii.eqb c "+" || neg then rest else s in
      match ParseUint body with
      | (_, Some ErrSyntax) => (0, Some ErrSyntax)
      | (un, _) =>
          if negb neg && Z.leb (2 ^ 63) un then (int64_max, Some ErrRange)
          else if neg && Z.ltb (2 ^ 63) un then (int64_min, Some ErrRange)
          else (if neg then neg64 un else wrap64 un, None)
      end
  end.

(** The fast path of [strconv.Atoi] for 1 to 18 bytes. *)
Fixpoint Atoi_digits (s : string) (n : Z) : option Z :=
  match s with
  | EmptyString => Some n
  | String c rest =>
      if is_digit c then Atoi_digits rest (n * 10 + digit_val c) else None
  end.

(** [strconv.Atoi(s)] on a 64-bit platform.  The value is returned next to
    the error, as in Go: callers that drop the error still get the value. *)
Definition Atoi (s : string) : Z * option NumErr :=
  let sLen := String.length s in
  if Nat.ltb 0 sLen && Nat.ltb sLen 19 then
    match s with
    | EmptyString => (0, Some ErrSyntax)
    | String c rest =>
        let signed := Ascii.eqb c "-" || Ascii.eqb c "+" in
        let body := if signed then rest else s in
        if signed && Nat.ltb (String.length body) 1 then (0, Some ErrSyntax)
        else match Atoi_digits body 0 with
             | None => (0, Some ErrSyntax)
             | Some n => (if Ascii.eqb c "-" then - n else n, None)
             end
    end
  else ParseInt s.

(** Decimal rendering of a signed integer, as [%d] does. *)
Definition digit_char (d : Z) : ascii := ascii_of_nat (Z.to_nat (48 + d)).

Fixpoint utoa_fuel (fuel : nat) (n : Z) (acc : string) : string :=
  match fuel with
  | O => acc
  | S fuel' =>
      let acc' := String (digit_char (n mod 10)) acc in
      if Z.ltb n 10 then acc' else utoa_fuel fuel' (n / 10) acc'
  end.

Definition itoa (z : Z) : string :=
  if Z.ltb z 0 then String "-" (utoa_fuel 20 (- z) EmptyString)
  else utoa_fuel 20 z EmptyString.

(** ** Data model *)

(** Identity of an [*Account]. *)
Abbreviation AccountPtr := positive.

Record JetStreamConfig := mkJetStreamConfig {
  cfg_MaxMemory : Z;
  cfg_MaxStore : Z;
  cfg_StoreDir : string
}.

Record JetStreamAccountLimits := mkLimits {
  MaxMemory : Z;
  MaxStore : Z;
  MaxMsgSets : Z;
  MaxObservables : Z
}.

(** Modelled from the spec: the [StorageType] enumeration and the
    [MsgSetConfig] record are declared in msgset.go, which is not among the
    sources; the fields are those the data model lists. *)
Inductive StorageType := MemoryStorage | FileStorage.

Record MsgSetConfig := mkMsgSetConfig {
  ms_Name : string;
  ms_Subjects : list string;
  ms_Retention : Z;
  ms_Storage : StorageType;
  ms_MaxBytes : Z;
  ms_MaxMsgs : Z;
  ms_MaxAge : Z;
  ms_Replicas : Z;
  ms_NoAck : bool;
  ms_MaxObservables : Z
}.

Definition OK : string := "+OK".
Definition ErrPrefix : string := "-ERR".
Definition JetStreamNotEnabled : string := "-ERR 'jetstream not enabled for account'".
Definition JetStreamBadRequest : string := "-ERR 'bad request'".

Definition JetStreamStoreDir : string := "jetstream".
Definition JetStreamMaxStoreDefault : Z := 1024 * 1024 * 1024 * 1024.
Definition JetStreamMaxMemDefault : Z := 1024 * 1024 * 256.

Definition isValidName (name : string) : bool :=
  match name with
  | EmptyString => false
  | _ => negb (ContainsAny name ["."; "*"; ">"]%char)
  end.

(** [diffCheckedLimits(a, b)]: the composite literal sets two fields, the
    other two keep their zero value. *)
Definition diffCheckedLimits (a b : JetStreamAccountLimits) : JetStreamAccountLimits :=
  {| MaxMemory := sub64 (MaxMemory b) (MaxMemory a);
     MaxStore := sub64 (MaxStore b) (MaxStore a);
     MaxMsgSets := 0;
     MaxObservables := 0 |}.

(** The message-set object behind a [*MsgSet] handle is declared in
    msgset.go; the records below take its type as a parameter. *)
Record jsAccount (MsgSet : Type) := mkJsAccount {
  jsa_limits : JetStreamAccountLimits;
  jsa_memReserved : Z;
  jsa_memUsed : Z;
  jsa_storeReserved : Z;
  jsa_storeUsed : Z;
  jsa_storeDir : string;
  jsa_msgSets : gmap string MsgSet
}.
Arguments mkJsAccount {MsgSet}.
Arguments jsa_limits {MsgSet}.
Arguments jsa_memReserved {MsgSet}.
Arguments jsa_memUsed {MsgSet}.
Arguments jsa_storeReserved {MsgSet}.
Arguments jsa_storeUsed {MsgSet}.
Arguments jsa_storeDir {MsgSet}.
Arguments jsa_msgSets {MsgSet}.

(** The engine.  [js_accounts] owns the [jsAccount] objects: the back link
    [a.js] of an account and its registry entry [js.accounts[a]] are set by
    the same enablement and cleared by the same disablement and point to one
    object, of which the model keeps the single copy in the registry. *)
Record jetStream (MsgSet : Type) := mkJetStream {
  js_config : JetStreamConfig;
  js_accounts : gmap positive (jsAccount MsgSet);
  js_memReserved : Z;
  js_storeReserved : Z
}.
Arguments mkJetStream {MsgSet}.
Arguments js_config {MsgSet}.
Arguments js_accounts {MsgSet}.
Arguments js_memReserved {MsgSet}.
Arguments js_storeReserved {MsgSet}.

(** The part of [Server] the JetStream code reads and writes: the engine
    pointer [s.js], whether the server runs stand-alone, the accounts that
    are registered with the server ([a.srv] is set), and the internal
    messages published so far, oldest first, as (account, subject, payload). *)
Record Server (MsgSet : Type) := mkServer {
  srv_standAlone : bool;
  srv_js : option (jetStream MsgSet);
  srv_registered : gset positive;
  srv_sent : list (positive * string * string)
}.
Arguments mkServer {MsgSet}.
Arguments srv_standAlone {MsgSet}.
Arguments srv_js {MsgSet}.
Arguments srv_registered {MsgSet}.
Arguments srv_sent {MsgSet}.

Record client := mkClient { c_acc : option positive }.

Section Engine.

Context {MsgSet : Type}.

(** What the code takes from the platform and from the broker: detected
    system memory ([sysmem.Memory]), [os.TempDir], [filepath.Join] and
    [path.Join], the name of an account, and the outcome of the set-up
    steps that follow the installation of the engine in
    [Server.EnableJetStream] (storage directory probe, subscriptions and
    exports), which do not touch the engine's configuration, and the
    global account when it is the only account ([s.globalAccountOnly]). *)
Variable sysMem : Z.
Variable TempDir : string.
Variable pathJoin : list string -> string.
Variable accName : positive -> string.
Variable setupJetStream : JetStreamConfig -> option string.
Variable globalAccountOnly : option positive.

(** [MsgSet.EraseMsg(seq)]: reports whether a message was removed and
    leaves the object in its new state. *)
Variable EraseMsg : MsgSet -> Z -> bool * MsgSet.

Definition set_js (s : Server MsgSet) (js : option (jetStream MsgSet)) : Server MsgSet :=
  {| srv_standAlone := srv_standAlone s;
     srv_js := js;
     srv_registered := srv_registered s;
     srv_sent := srv_sent s |}.

Definition set_accounts (js : jetStream MsgSet)
    (accs : gmap positive (jsAccount MsgSet)) : jetStream MsgSet :=
  {| js_config := js_config js;
     js_accounts := accs;
     js_memReserved := js_memReserved js;
     js_storeReserved := js_storeReserved js |}.

Definition set_limits (jsa : jsAccount MsgSet) (l : JetStreamAccountLimits) : jsAccount MsgSet :=
  {| jsa_limits := l;
     jsa_memReserved := jsa_memReserved jsa;
     jsa_memUsed := jsa_memUsed jsa;
     jsa_storeReserved := jsa_storeReserved jsa;
     jsa_storeUsed := jsa_storeUsed jsa;
     jsa_storeDir := jsa_storeDir jsa;
     jsa_msgSets := jsa_msgSets jsa |}.

Definition set_msgSets (jsa : jsAccount MsgSet) (m : gmap string MsgSet) : jsAccount MsgSet :=
  {| jsa_limits := jsa_limits jsa;
     jsa_memReserved := jsa_memReserved jsa;
     jsa_memUsed := jsa_memUsed jsa;
     jsa_storeReserved := jsa_storeReserved jsa;
     jsa_storeUsed := jsa_storeUsed jsa;
     jsa_storeDir := jsa_storeDir jsa;
     jsa_msgSets := m |}.

(** *** Quota arithmetic (the caller holds the engine lock) *)

Definition dynamicAccountLimits (js : jetStream MsgSet) : JetStreamAccountLimits :=
  {| MaxMemory := cfg_MaxMemory (js_config js);
     MaxStore := cfg_MaxStore (js_config js);
     MaxMsgSets := -1;
     MaxObservables := -1 |}.

Definition sufficientResources (js : jetStream MsgSet)
    (limits : option JetStreamAccountLimits) : option string :=
  match limits with
  | None => None
  | Some l =>
      if Z.ltb (cfg_MaxMemory (js_config js)) (add64 (js_memReserved js) (MaxMemory l))
      then Some "insufficient memory resources available"
      else if Z.ltb (cfg_MaxStore (js_config js)) (add64 (js_storeReserved js) (MaxStore l))
      then Some "insufficient storage resources available"
      else None
  end.

(** [reserveResources] and [releaseResources] always return a nil error;
    the model returns the engine after the update. *)
Definition reserveResources (js : jetStream MsgSet)
    (limits : option JetStreamAccountLimits) : jetStream MsgSet :=
  match limits with
  | None => js
  | Some l =>
      {| js_config := js_config js;
         js_accounts := js_accounts js;
         js_memReserved :=
           if Z.ltb 0 (MaxMemory l) then add64 (js_memReserved js) (MaxMemory l)
           else js_memReserved js;
         js_storeReserved :=
           if Z.ltb 0 (MaxStore l) then add64 (js_storeReserved js) (MaxStore l)
           else js_storeReserved js |}
  end.

Definition releaseResources (js : jetStream MsgSet)
    (limits : option JetStreamAccountLimits) : jetStream MsgSet :=
  match limits with
  | None => js
  | Some l =>
      {| js_config := js_config js;
         js_accounts := js_accounts js;
         js_memReserved :=
           if Z.ltb 0 (MaxMemory l) then sub64 (js_memReserved js) (MaxMemory l)
           else js_memReserved js;
         js_storeReserved :=
           if Z.ltb 0 (MaxStore l) then sub64 (js_storeReserved js) (MaxStore l)
           else js_storeReserved js |}
  end.

Definition lookupAccount (js : jetStream MsgSet) (a : positive) : option (jsAccount MsgSet) :=
  js_accounts js !! a.

(** *** Account enablement, limit update and disablement *)

(** [Account.EnableJetStream], from its entry to the stamp of the back
    link: the checks, the critical section under the engine lock and the
    registration.  The service imports and the recovery of stored state
    that follow do not read or write the engine ledger, the registry of
    accounts or an account's limits; the recovery loop is [recoverMsgSets]
    below. *)
Definition Account_EnableJetStream (a : positive)
    (limits : option JetStreamAccountLimits) (s : Server MsgSet)
    : option string * Server MsgSet :=
  if negb (bool_decide (a ∈ srv_registered s))
  then (Some "jetstream account not registered", s)
  else match srv_js s with
  | None => (Some "jetstream not enabled", s)
  | Some js =>
      let limits := match limits with
                    | None => dynamicAccountLimits js
                    | Some l => l
                    end in
      match sufficientResources js (Some limits) with
      | Some err => (Some err, s)
      | None =>
          match js_accounts js !! a with
          | Some _ => (Some "jetstream already enabled for account", s)
          | None =>
              let jsa := {| jsa_limits := limits;
                            jsa_memReserved := 0;
                            jsa_memUsed := 0;
                            jsa_storeReserved := 0;
                            jsa_storeUsed := 0;
                            jsa_storeDir :=
                              pathJoin [cfg_StoreDir (js_config js); accName a];
                            jsa_msgSets := ∅ |} in
              let js1 := set_accounts js (<[a := jsa]> (js_accounts js)) in
              let js2 := reserveResources js1 (Some limits) in
              (None, set_js s (Some js2))
          end
      end
  end.

Definition UpdateJetStreamLimits (a : positive)
    (limits : option JetStreamAccountLimits) (s : Server MsgSet)
    : option string * Server MsgSet :=
  if negb (bool_decide (a ∈ srv_registered s))
  then (Some "jetstream account not registered", s)
  else match srv_js s with
  | None => (Some "jetstream not enabled", s)
  | Some js =>
      match lookupAccount js a with
      | None => (Some "jetstream not enabled for account", s)
      | Some jsa =>
          let limits := match limits with
                        | None => dynamicAccountLimits js
                        | Some l => l
                        end in
          let dl := diffCheckedLimits (jsa_limits jsa) limits in
          let jsaLimits := jsa_limits jsa in
          match sufficientResources js (Some dl) with
          | Some err => (Some err, s)
          | None =>
              let js1 := releaseResources js (Some jsaLimits) in
              let js2 := reserveResources js1 (Some limits) in
              let js3 := set_accounts js2 (<[a := set_limits jsa limits]> (js_accounts js2)) in
              (None, set_js s (Some js3))
          end
      end
  end.

(** [jetStream.disableJetStream(jsa)] for the entry of account [a]; the
    message sets of the removed object are stopped, their files stay. *)
Definition disableJetStream (js : jetStream MsgSet) (a : positive)
    (jsa : option (jsAccount MsgSet)) : option string * jetStream MsgSet :=
  match jsa with
  | None => (Some "jetstream not enabled for account", js)
  | Some jsa =>
      let js1 := set_accounts js (delete a (js_accounts js)) in
      (None, releaseResources js1 (Some (jsa_limits jsa)))
  end.

Definition Account_DisableJetStream (a : positive) (s : Server MsgSet)
    : option string * Server MsgSet :=
  if negb (bool_decide (a ∈ srv_registered s))
  then (Some "jetstream account not registered", s)
  else match srv_js s with
  | None => (Some "jetstream not enabled", s)
  | Some js =>
      let '(err, js1) := disableJetStream js a (lookupAccount js a) in
      (err, set_js s (Some js1))
  end.

Definition Account_JetStreamEnabled (a : option positive) (s : Server MsgSet) : bool :=
  match a with
  | None => false
  | Some a =>
      match srv_js s with
      | None => false
      | Some js => bool_decide (is_Some (js_accounts js !! a))
      end
  end.

(** *** Admission control for a new message set *)

Definition set_MaxObservables (config : MsgSetConfig) (n : Z) : MsgSetConfig :=
  {| ms_Name := ms_Name config;
     ms_Subjects := ms_Subjects config;
     ms_Retention := ms_Retention config;
     ms_Storage := ms_Storage config;
     ms_MaxBytes := ms_MaxBytes config;
     ms_MaxMsgs := ms_MaxMsgs config;
     ms_MaxAge := ms_MaxAge config;
     ms_Replicas := ms_Replicas config;
     ms_NoAck := ms_NoAck config;
     ms_MaxObservables := n |}.

(** [jsAccount.checkLimits(config)].  The configuration is passed by
    pointer and written to; the model returns it next to the error. *)
Definition checkLimits (jsa : jsAccount MsgSet) (config : MsgSetConfig)
    : option string * MsgSetConfig :=
  let limits := jsa_limits jsa in
  if Z.ltb 0 (MaxMsgSets limits)
     && Z.leb (MaxMsgSets limits) (Z.of_nat (size (jsa_msgSets jsa)))
  then (Some "maximum number of message sets reached", config)
  else if negb (Z.eqb (ms_Replicas config) 1)
  then (Some ("replicas setting of " +:+ itoa (ms_Replicas config) +:+ " not allowed"),
        config)
  else if Z.ltb 0 (ms_MaxObservables config)
          && Z.ltb (MaxObservables limits) (ms_MaxObservables config)
  then (Some "maximum observables exceeds account limit", config)
  else
    let config := set_MaxObservables config (MaxObservables limits) in
    if Z.ltb 0 (ms_MaxBytes config) then
      let mb := mul64 (ms_MaxBytes config) (ms_Replicas config) in
      match ms_Storage config with
      | MemoryStorage =>
          if Z.ltb (MaxMemory limits) (add64 (jsa_memReserved jsa) mb)
          then (Some "insufficient memory resources available", config)
          else (None, config)
      | FileStorage =>
          if Z.ltb (MaxStore limits) (add64 (jsa_storeReserved jsa) mb)
          then (Some "insufficient storage resources available", config)
          else (None, config)
      end
    else (None, config).

(** The first two admission steps let the request through. *)
Definition reachesObservablesStep (jsa : jsAccount MsgSet) (config : MsgSetConfig)
    : Prop :=
  (MaxMsgSets (jsa_limits jsa) <= 0
   \/ Z.of_nat (size (jsa_msgSets jsa)) < MaxMsgSets (jsa_limits jsa))
  /\ ms_Replicas config = 1.

(** *** The message-delete request handler *)

Definition sendInternalAccountMsg (s : Server MsgSet) (a : positive)
    (subject msg : string) : Server MsgSet :=
  {| srv_standAlone := srv_standAlone s;
     srv_js := srv_js s;
     srv_registered := srv_registered s;
     srv_sent := srv_sent s ++ [(a, subject, msg)] |}.

Definition Account_LookupMsgSet (a : positive) (name : string) (s : Server MsgSet)
    : MsgSet + string :=
  match srv_js s ≫= (λ js, js_accounts js !! a) with
  | None => inr "jetstream not enabled"
  | Some jsa =>
      match jsa_msgSets jsa !! name with
      | Some mset => inl mset
      | None => inr "msgset not found"
      end
  end.

(** A write through the handle found under [name] in the registry of
    account [a]: the registry holds the pointer, so the entry changes. *)
Definition store_MsgSet (a : positive) (name : string) (mset : MsgSet)
    (s : Server MsgSet) : Server MsgSet :=
  match srv_js s with
  | None => s
  | Some js =>
      match js_accounts js !! a with
      | None => s
      | Some jsa =>
          let jsa1 := set_msgSets jsa (<[name := mset]> (jsa_msgSets jsa)) in
          set_js s (Some (set_accounts js (<[a := jsa1]> (js_accounts js))))
      end
  end.

Definition jsMsgDeleteRequest (c : option client) (subject reply msg : string)
    (s : Server MsgSet) : Server MsgSet :=
  match c with
  | None => s
  | Some c =>
      match c_acc c with
      | None => s
      | Some acc =>
          if negb (Account_JetStreamEnabled (Some acc) s)
          then sendInternalAccountMsg s acc reply JetStreamNotEnabled
          else
            let args := Split msg " " in
            if negb (Nat.eqb (List.length args) 2)
            then sendInternalAccountMsg s acc reply JetStreamBadRequest
            else
              let name := nth 0 args "" in
              let seq := fst (Atoi (nth 1 args "")) in
              match Account_LookupMsgSet acc name s with
              | inr err =>
                  sendInternalAccountMsg s acc reply (ErrPrefix +:+ " " +:+ err)
              | inl mset =>
                  let '(erased, mset1) := EraseMsg mset (to_uint64 seq) in
                  let s1 := store_MsgSet acc name mset1 s in
                  let response :=
                    if erased then OK
                    else ErrPrefix +:+ " sequence [" +:+ itoa seq +:+ "] not found" in
                  sendInternalAccountMsg s1 acc reply response
              end
      end
  end.

(** *** Engine enablement *)

Definition dynJetStreamConfig (storeDir : string) : JetStreamConfig :=
  {| cfg_StoreDir :=
       if negb (String.eqb storeDir "") then pathJoin [storeDir; JetStreamStoreDir]
       else pathJoin [TempDir; JetStreamStoreDir];
     cfg_MaxStore := JetStreamMaxStoreDefault;
     cfg_MaxMemory :=
       if Z.ltb 0 sysMem then mul64 (Z.quot sysMem 4) 3
       else JetStreamMaxMemDefault |}.

Definition Server_EnableJetStream (config : option JetStreamConfig)
    (s : Server MsgSet) : option string * Server MsgSet :=
  if negb (srv_standAlone s)
  then (Some "jetstream restricted to single server mode", s)
  else match srv_js s with
  | Some _ => (Some "jetstream already enabled", s)
  | None =>
      let config :=
        match config with
        | None => dynJetStreamConfig ""
        | Some c =>
            if Z.leb (cfg_MaxMemory c) 0 || Z.leb (cfg_MaxStore c) 0
            then dynJetStreamConfig (cfg_StoreDir c)
            else c
        end in
      let cfg :=
        if String.eqb (cfg_StoreDir config) ""
        then {| cfg_MaxMemory := cfg_MaxMemory config;
                cfg_MaxStore := cfg_MaxStore config;
                cfg_StoreDir := pathJoin [TempDir; JetStreamStoreDir] |}
        else config in
      let s1 := set_js s (Some {| js_config := cfg;
                                  js_accounts := ∅;
                                  js_memReserved := 0;
                                  js_storeReserved := 0 |}) in
      match setupJetStream cfg with
      | Some err => (Some err, s1)
      | None =>
          match globalAccountOnly with
          | None => (None, s1)
          | Some g =>
              match Account_EnableJetStream g None s1 with
              | (Some _, s2) =>
                  (Some "Error enabling jetstream on the global account", s2)
              | (None, s2) => (None, s2)
              end
          end
      end
  end.

(** *** Sequences of account operations *)

Inductive AccountOp :=
| OpEnable (a : positive) (limits : option JetStreamAccountLimits)
| OpUpdate (a : positive) (limits : option JetStreamAccountLimits)
| OpDisable (a : positive).

Definition applyOp (s : Server MsgSet) (op : AccountOp) : Server MsgSet :=
  match op with
  | OpEnable a limits => snd (Account_EnableJetStream a limits s)
  | OpUpdate a limits => snd (UpdateJetStreamLimits a limits s)
  | OpDisable a => snd (Account_DisableJetStream a s)
  end.

Definition runOps (ops : list AccountOp) (s : Server MsgSet) : Server MsgSet :=
  fold_left applyOp ops s.

(** The engine as [Server.EnableJetStream] installs it. *)
Definition newServer (cfg : JetStreamConfig) (registered : gset positive) : Server MsgSet :=
  {| srv_standAlone := true;
     srv_js := Some {| js_config := cfg;
                       js_accounts := ∅;
                       js_memReserved := 0;
                       js_storeReserved := 0 |};
     srv_registered := registered;
     srv_sent := [] |}.

(** Sums over the enabled accounts: of the limits as they are, and of
    their positive parts. *)
Definition sumLimits (f : JetStreamAccountLimits -> Z)
    (accs : gmap positive (jsAccount MsgSet)) : Z :=
  map_fold (λ _ jsa acc, acc + f (jsa_limits jsa)) 0 accs.

Definition posPart (f : JetStreamAccountLimits -> Z) (l : JetStreamAccountLimits) : Z :=
  Z.max 0 (f l).

(** The ledger invariant: each counter is the int64 sum, over the enabled
    accounts, of the positive part of the corresponding limit. *)
Definition ledgerInv (js : jetStream MsgSet) : Prop :=
  js_memReserved js = wrap64 (sumLimits (posPart MaxMemory) (js_accounts js))
  /\ js_storeReserved js = wrap64 (sumLimits (posPart MaxStore) (js_accounts js)).

Definition serverInv (s : Server MsgSet) : Prop :=
  exists js, srv_js s = Some js /\ ledgerInv js.

(** *** Usage accounting *)

Definition set_used (jsa : jsAccount MsgSet) (memUsed storeUsed : Z) : jsAccount MsgSet :=
  {| jsa_limits := jsa_limits jsa;
     jsa_memReserved := jsa_memReserved jsa;
     jsa_memUsed := memUsed;
     jsa_storeReserved := jsa_storeReserved jsa;
     jsa_storeUsed := storeUsed;
     jsa_storeDir := jsa_storeDir jsa;
     jsa_msgSets := jsa_msgSets jsa |}.

(** [jsAccount.updateUsage(storeType, delta)]. *)
Definition updateUsage (jsa : jsAccount MsgSet) (storeType : StorageType) (delta : Z)
    : jsAccount MsgSet :=
  match storeType with
  | MemoryStorage => set_used jsa (add64 (jsa_memUsed jsa) delta) (jsa_storeUsed jsa)
  | FileStorage => set_used jsa (jsa_memUsed jsa) (add64 (jsa_storeUsed jsa) delta)
  end.

(** [jsAccount.limitsExceeded(storeType)]. *)
Definition limitsExceeded (jsa : jsAccount MsgSet) (storeType : StorageType) : bool :=
  match storeType with
  | MemoryStorage => Z.ltb (MaxMemory (jsa_limits jsa)) (jsa_memUsed jsa)
  | FileStorage => Z.ltb (MaxStore (jsa_limits jsa)) (jsa_storeUsed jsa)
  end.

(** *** Queries on the engine *)

(** [Server.JetStreamNumAccounts]. *)
Definition JetStreamNumAccounts (s : Server MsgSet) : Z :=
  match srv_js s with
  | None => 0
  | Some js => Z.of_nat (size (js_accounts js))
  end.



(** *** The is-enabled probe *)

Definition isJsEnabledRequest (c : option client) (subject reply msg : string)
    (s : Server MsgSet) : Server MsgSet :=
  match c with
  | None => s
  | Some c =>
      match c_acc c with
      | None => s
      | Some acc =>
          if Account_JetStreamEnabled (Some acc) s
          then sendInternalAccountMsg s acc reply OK
          else sendInternalAccountMsg s acc reply JetStreamNotEnabled
      end
  end.

(** *** The purge request *)

(** [MsgSet.Purge()], which empties the store of the set. *)
Variable Purge : MsgSet -> MsgSet.


End Engine.

(** ** Recovery of stored state at account enablement *)

Definition JetStreamMetaFile : string := "meta.inf".
Definition JetStreamMetaFileSum : string := "meta.sum".

(** Modelled from the spec: the constant [obsDir] is declared with the
    observables; the on-disk layout names the directory. *)
Definition obsDir : string := "obs".

Inductive LogLevel := LNotice | LWarn.

Record LogEntry := mkLog {
  log_level : LogLevel;
  log_format : string;
  log_args : list string
}.

(** What the loop sees of one directory entry: its name, whether
    [os.Stat] finds [meta.inf], what [ioutil.ReadFile] returns for it (the
    bytes or an error), and whether [os.Stat] finds [meta.sum]. *)
Record MetaEntry := mkMetaEntry {
  fi_Name : string;
  fi_metaExists : bool;
  fi_metaRead : string + string;
  fi_sumExists : bool
}.

(** A child of the account's store directory with the children of its
    [obs] directory. *)
Record MsgSetEntry := mkMsgSetEntry {
  mse_meta : MetaEntry;
  mse_obs : list MetaEntry
}.

(** How the loop ends: it returns, or it calls a method that reads through
    a nil [*MsgSet], which panics. *)
Inductive Completion := Returned | NilDereference.

Section Recovery.

(** The collaborators of the loop, over the state [St] they read and
    write through the account, with handles for message sets and
    observables.  [AddMsgSet] and [AddObservable] return a handle or an
    error, never both. *)
Context {St MsgSetH ObsH ObservableConfig : Type}.
Variable pathJoin : list string -> string.
Variable comma : Z -> string.
Variable UnmarshalMsgSetConfig : string -> MsgSetConfig + string.
Variable UnmarshalObservableConfig : string -> ObservableConfig + string.
Variable AddMsgSet : MsgSetConfig -> St -> (MsgSetH + string) * St.
Variable Stats_Msgs : MsgSetH -> St -> Z.
Variable AddObservable : MsgSetH -> ObservableConfig -> St -> (ObsH + string) * St.
Variable readStoredState : ObsH -> St -> option string * St.

Definition Warnf (log : list LogEntry) (format : string) (args : list string)
    : list LogEntry :=
  log ++ [mkLog LWarn format args].

Definition Noticef (log : list LogEntry) (format : string) (args : list string)
    : list LogEntry :=
  log ++ [mkLog LNotice format args].

(** The inner loop over the children of [odir]. *)
Fixpoint recoverObservables (mset : MsgSetH) (odir : string)
    (ofis : list MetaEntry) (st : St) (log : list LogEntry)
    : St * list LogEntry :=
  match ofis with
  | [] => (st, log)
  | ofi :: rest =>
      let metafile := pathJoin [odir; fi_Name ofi; JetStreamMetaFile] in
      let metasum := pathJoin [odir; fi_Name ofi; JetStreamMetaFileSum] in
      if negb (fi_metaExists ofi) then
        recoverObservables mset odir rest st
          (Warnf log "    Missing Observable Metafile %q" [metafile])
      else match fi_metaRead ofi with
      | inr err =>
          recoverObservables mset odir rest st
            (Warnf log "    Error reading observable metafile %q: %v" [metasum; err])
      | inl buf =>
          if negb (fi_sumExists ofi) then
            recoverObservables mset odir rest st
              (Warnf log "    Missing Observable checksum for %q" [metasum])
          else match UnmarshalObservableConfig buf with
          | inr err =>
              recoverObservables mset odir rest st
                (Warnf log "    Error unmarshalling Observable metafile: %v" [err])
          | inl cfg =>
              match AddObservable mset cfg st with
              | (inr err, st1) =>
                  recoverObservables mset odir rest st1
                    (Warnf log "    Error adding Observable: %v" [err])
              | (inl obs, st1) =>
                  match readStoredState obs st1 with
                  | (Some err, st2) =>
                      recoverObservables mset odir rest st2
                        (Warnf log "    Error restoring Observable state: %v" [err])
                  | (None, st2) => recoverObservables mset odir rest st2 log
                  end
              end
          end
      end
  end.

(** The outer loop over the children of the account's store directory.
    After a failed [AddMsgSet] the warning is written and control goes on
    to [mset.Stats()] with the nil handle. *)
Fixpoint recoverMsgSets (storeDir : string) (fis : list MsgSetEntry)
    (st : St) (log : list LogEntry) : Completion * St * list LogEntry :=
  match fis with
  | [] => (Returned, st, log)
  | d :: rest =>
      let fi := mse_meta d in
      let metafile := pathJoin [storeDir; fi_Name fi; JetStreamMetaFile] in
      let metasum := pathJoin [storeDir; fi_Name fi; JetStreamMetaFileSum] in
      if negb (fi_metaExists fi) then
        recoverMsgSets storeDir rest st
          (Warnf log "  Missing MsgSet metafile for %q" [metafile])
      else match fi_metaRead fi with
      | inr err =>
          recoverMsgSets storeDir rest st
            (Warnf log "  Error reading metafile %q: %v" [metasum; err])
      | inl buf =>
          if negb (fi_sumExists fi) then
            recoverMsgSets storeDir rest st
              (Warnf log "  Missing MsgSet checksum for %q" [metasum])
          else match UnmarshalMsgSetConfig buf with
          | inr err =>
              recoverMsgSets storeDir rest st
                (Warnf log "  Error unmarshalling MsgSet metafile: %v" [err])
          | inl cfg =>
              let '(res, st1) := AddMsgSet cfg st in
              let mset := match res with inl h => Some h | inr _ => None end in
              let log1 := match res with
                          | inr err => Warnf log "  Error recreating MsgSet: %v" [err]
                          | inl _ => log
                          end in
              match mset with
              | None => (NilDereference, st1, log1)
              | Some mset =>
                  let log2 := Noticef log1 "  Restored %d messages for MsgSet %q"
                                [comma (Stats_Msgs mset st1); fi_Name fi] in
                  let odir := pathJoin [storeDir; fi_Name fi; obsDir] in
                  let ofis := mse_obs d in
                  let log3 :=
                    if Nat.ltb 0 (List.length ofis)
                    then Noticef log2 "  Recovering %d Observables for MsgSet - %q"
                           [itoa (Z.of_nat (List.length ofis)); fi_Name fi]
                    else log2 in
                  let '(st2, log4) := recoverObservables mset odir ofis st1 log3 in
                  recoverMsgSets storeDir rest st2 log4
              end
          end
      end
  end.

(** The recovery as [Account.EnableJetStream] runs it: the opening notice
    when the directory has children, the loop, and the closing notice
    when the loop returns. *)
Definition recoverState (storeDir accountName : string) (fis : list MsgSetEntry)
    (st : St) (log : list LogEntry) : Completion * St * list LogEntry :=
  let log0 :=
    if Nat.ltb 0 (List.length fis)
    then Noticef log "  Recovering JetStream state for account %q" [accountName]
    else log in
  match recoverMsgSets storeDir fis st log0 with
  | (Returned, st1, log1) =>
      (Returned, st1, Noticef log1 "JetStream state for account %q recovered" [accountName])
  | r => r
  end.

End Recovery.

(** An entry the outer loop cannot decode: [meta.inf] is missing or cannot
    be read, [meta.sum] is missing, or the document does not parse. *)
Definition unparsable (Unmarshal : string -> MsgSetConfig + string) (d : MsgSetEntry)
    : Prop :=
  fi_metaExists (mse_meta d) = false
  \/ (exists err, fi_metaRead (mse_meta d) = inr err)
  \/ fi_sumExists (mse_meta d) = false
  \/ (exists buf err, fi_metaRead (mse_meta d) = inl buf /\ Unmarshal buf = inr err).

Definition isWarning (e : LogEntry) : Prop := log_level e = LWarn.

(** ** The claimed laws in the words of the specification *)

(** [diffLimits(old, new)]: the componentwise difference in all four
    fields. *)
Definition diffLimits_spec (old new : JetStreamAccountLimits) : JetStreamAccountLimits :=
  {| MaxMemory := MaxMemory new - MaxMemory old;
     MaxStore := MaxStore new - MaxStore old;
     MaxMsgSets := MaxMsgSets new - MaxMsgSets old;
     MaxObservables := MaxObservables new - MaxObservables old |}.

(** Step 3 of admission control as the specification words it: reject when
    the account limit is positive and the request exceeds it. *)
Definition observablesRejected_spec (limits : JetStreamAccountLimits)
    (config : MsgSetConfig) : bool :=
  Z.ltb 0 (MaxObservables limits)
  && Z.ltb (MaxObservables limits) (ms_MaxObservables config).

(** ** Concrete collaborators for the worked examples *)

(** A message set as a configuration and the sequences it stores. *)
Record MsgSetC := mkMsgSetC {
  msc_config : MsgSetConfig;
  msc_msgs : list Z
}.

Definition EraseMsgC (m : MsgSetC) (seq : Z) : bool * MsgSetC :=
  if existsb (Z.eqb seq) (msc_msgs m)
  then (true, {| msc_config := msc_config m;
                 msc_msgs := List.filter (λ x, negb (Z.eqb seq x)) (msc_msgs m) |})
  else (false, m).

Definition pathJoinC (elems : list string) : string := String.concat "/" elems.

Definition accNameC (a : positive) : string := "A" +:+ itoa (Z.pos a).

Definition configC (name : string) (maxObservables : Z) : MsgSetConfig :=
  {| ms_Name := name;
     ms_Subjects := [];
     ms_Retention := 0;
     ms_Storage := MemoryStorage;
     ms_MaxBytes := 0;
     ms_MaxMsgs := 0;
     ms_MaxAge := 0;
     ms_Replicas := 1;
     ms_NoAck := false;
     ms_MaxObservables := maxObservables |}.

Definition jsAccountC (limits : JetStreamAccountLimits)
    (sets : gmap string MsgSetC) : jsAccount MsgSetC :=
  {| jsa_limits := limits;
     jsa_memReserved := 0;
     jsa_memUsed := 0;
     jsa_storeReserved := 0;
     jsa_storeUsed := 0;
     jsa_storeDir := "/tmp/jetstream/A1";
     jsa_msgSets := sets |}.

Definition configGiB : JetStreamConfig :=
  {| cfg_MaxMemory := 1024 * 1024 * 1024;
     cfg_MaxStore := 1024 * 1024 * 1024;
     cfg_StoreDir := "/tmp/js-test" |}.

(** An engine with account 1 enabled under the dynamic limits and holding
    the empty message set [S1]. *)
Definition serverC : Server MsgSetC :=
  {| srv_standAlone := true;
     srv_js :=
       Some {| js_config := configGiB;
               js_accounts :=
                 {[ 1%positive :=
                      jsAccountC (mkLimits (1024 * 1024 * 1024) (1024 * 1024 * 1024) (-1) (-1))
                        {[ "S1" := mkMsgSetC (configC "S1" (-1)) [] ]} ]};
               js_memReserved := 1024 * 1024 * 1024;
               js_storeReserved := 1024 * 1024 * 1024 |};
     srv_registered := {[ 1%positive ]};
     srv_sent := [] |}.

(** Modelled from the spec: [Account.AddMsgSet] lives in msgset.go, which
    is not among the sources.  A create validates the name, runs admission
    control, refuses a duplicate name and otherwise registers the set; the
    handle is the registry key. *)
Definition AddMsgSetC (config : MsgSetConfig) (jsa : jsAccount MsgSetC)
    : (string + string) * jsAccount MsgSetC :=
  if negb (isValidName (ms_Name config)) then (inr "invalid name", jsa)
  else match checkLimits jsa config with
  | (Some err, _) => (inr err, jsa)
  | (None, config1) =>
      match jsa_msgSets jsa !! ms_Name config1 with
      | Some _ => (inr "msgset already exists", jsa)
      | None =>
          (inl (ms_Name config1),
           set_msgSets jsa (<[ms_Name config1 := mkMsgSetC config1 []]> (jsa_msgSets jsa)))
      end
  end.

Definition Stats_MsgsC (h : string) (jsa : jsAccount MsgSetC) : Z :=
  match jsa_msgSets jsa !! h with
  | Some m => Z.of_nat (List.length (msc_msgs m))
  | None => 0
  end.

(** Stand-ins for the JSON decoder and the observable layer in the worked
    examples: a document is the name of the set it configures, and a set
    accepts every observable. *)
Definition UnmarshalC (buf : string) : MsgSetConfig + string :=
  match buf with
  | EmptyString => inr "unexpected end of JSON input"
  | _ => inl (configC buf 0)
  end.

Definition UnmarshalObsC (buf : string) : string + string := inl buf.

Definition AddObservableC (h : string) (cfg : string) (jsa : jsAccount MsgSetC)
    : (string + string) * jsAccount MsgSetC :=
  (inl cfg, jsa).

Definition readStoredStateC (o : string) (jsa : jsAccount MsgSetC)
    : option string * jsAccount MsgSetC :=
  (None, jsa).

Definition metaC (name : string) : MsgSetEntry :=
  {| mse_meta := {| fi_Name := name;
                    fi_metaExists := true;
                    fi_metaRead := inl name;
                    fi_sumExists := true |};
     mse_obs := [] |}.

Definition recoverC (fis : list MsgSetEntry) (jsa : jsAccount MsgSetC)
    : Completion * jsAccount MsgSetC * list LogEntry :=
  recoverMsgSets pathJoinC itoa UnmarshalC UnmarshalObsC AddMsgSetC Stats_MsgsC
    AddObservableC readStoredStateC "/tmp/jetstream/A1" fis jsa [].

(** * Properties *)

(** ** Wrap-around arithmetic *)

Lemma wrap64_range (z : Z) : in_int64 (wrap64 z).
Proof.
  unfold in_int64, wrap64, int64_min, int64_max.
  pose proof (Z.mod_pos_bound (z + 2 ^ 63) (2 ^ 64) ltac:(lia)). lia.
Qed.

Lemma wrap64_id (z : Z) : in_int64 z -> wrap64 z = z.
Proof.
  unfold in_int64, wrap64, int64_min, int64_max. intros H.
  rewrite Z.mod_small by lia. lia.
Qed.

Lemma wrap64_add_l (a b : Z) : wrap64 (wrap64 a + b) = wrap64 (a + b).
Proof.
  unfold wrap64.
  replace ((a + 2 ^ 63) mod 2 ^ 64 - 2 ^ 63 + b + 2 ^ 63)
    with ((a + 2 ^ 63) mod 2 ^ 64 + b) by lia.
  rewrite Zplus_mod_idemp_l. do 2 f_equal; lia.
Qed.

Lemma wrap64_add_r (a b : Z) : wrap64 (a + wrap64 b) = wrap64 (a + b).
Proof. rewrite (Z.add_comm a (wrap64 b)), wrap64_add_l. f_equal; lia. Qed.

Lemma wrap64_sub_l (a b : Z) : wrap64 (wrap64 a - b) = wrap64 (a - b).
Proof.
  replace (wrap64 a - b) with (wrap64 a + - b) by lia.
  rewrite wrap64_add_l. f_equal; lia.
Qed.

Lemma wrap64_idemp (a : Z) : wrap64 (wrap64 a) = wrap64 a.
Proof. apply wrap64_id, wrap64_range. Qed.

Lemma add64_sub64_cancel (m d : Z) : in_int64 m -> sub64 (add64 m d) d = m.
Proof.
  intros H. unfold sub64, add64. rewrite wrap64_sub_l.
  replace (m + d - d) with m by lia. by apply wrap64_id.
Qed.

Lemma sub64_exact (a b : Z) : in_int64 (b - a) -> sub64 b a = b - a.
Proof. apply wrap64_id. Qed.

(** ** The limits difference *)

(** C5, as amended: [diffCheckedLimits old new] carries the int64 differences
    new - old in MaxMemory and MaxStore, and zero in MaxMsgSets and
    MaxObservables whatever the inputs are. *)
Theorem diffCheckedLimits_fields (old new : JetStreamAccountLimits) :
  MaxMemory (diffCheckedLimits old new) = sub64 (MaxMemory new) (MaxMemory old)
  /\ MaxStore (diffCheckedLimits old new) = sub64 (MaxStore new) (MaxStore old)
  /\ MaxMsgSets (diffCheckedLimits old new) = 0
  /\ MaxObservables (diffCheckedLimits old new) = 0.
Proof. unfold diffCheckedLimits. simpl. repeat split. Qed.

(** C5, the claim as stated fails: with MaxMsgSets 1 before and 3 after, the
    componentwise difference has MaxMsgSets 2 and [diffCheckedLimits] has 0. *)
Lemma diffCheckedLimits_not_componentwise :
  diffCheckedLimits (mkLimits 0 0 1 0) (mkLimits 0 0 3 0)
  <> diffLimits_spec (mkLimits 0 0 1 0) (mkLimits 0 0 3 0).
Proof. unfold diffCheckedLimits, diffLimits_spec. simpl. intros H. inversion H. Qed.

(** On the two fields the sufficiency check reads, the difference is exact
    whenever it fits in an int64. *)
Lemma diffCheckedLimits_exact (old new : JetStreamAccountLimits) :
  in_int64 (MaxMemory new - MaxMemory old) ->
  in_int64 (MaxStore new - MaxStore old) ->
  MaxMemory (diffCheckedLimits old new) = MaxMemory (diffLimits_spec old new)
  /\ MaxStore (diffCheckedLimits old new) = MaxStore (diffLimits_spec old new).
Proof.
  intros Hm Hs. unfold diffCheckedLimits, diffLimits_spec. simpl.
  by rewrite !sub64_exact.
Qed.

(** ** Reserve and release *)

Section LedgerFacts.

Context {MsgSet : Type}.
Implicit Types (js : jetStream MsgSet) (l : JetStreamAccountLimits).

Lemma reserveResources_accounts js d :
  js_accounts (reserveResources js d) = js_accounts js.
Proof. by destruct d. Qed.

Lemma releaseResources_accounts js d :
  js_accounts (releaseResources js d) = js_accounts js.
Proof. by destruct d. Qed.

Lemma reserveResources_config js d :
  js_config (reserveResources js d) = js_config js.
Proof. by destruct d. Qed.

Lemma releaseResources_config js d :
  js_config (releaseResources js d) = js_config js.
Proof. by destruct d. Qed.



End LedgerFacts.

(** C9: for every limits record [d], nil included, and every ledger whose
    counters are int64 values, reserving [d] and then releasing [d] gives
    back the engine as it was, so memReserved and storeReserved return to
    their prior values. *)
Theorem reserve_release_noop {MsgSet : Type} (js : jetStream MsgSet)
    (d : option JetStreamAccountLimits) :
  in_int64 (js_memReserved js) ->
  in_int64 (js_storeReserved js) ->
  releaseResources (reserveResources js d) d = js
  /\ js_memReserved (releaseResources (reserveResources js d) d) = js_memReserved js
  /\ js_storeReserved (releaseResources (reserveResources js d) d) = js_storeReserved js.
Proof.
  intros Hm Hs.
  assert (H : releaseResources (reserveResources js d) d = js).
  { destruct js as [cfg accs m st], d as [l|]; [|done]. simpl in *.
    unfold releaseResources, reserveResources. simpl. f_equal.
    - destruct (Z.ltb 0 (MaxMemory l)); [by apply add64_sub64_cancel | done].
    - destruct (Z.ltb 0 (MaxStore l)); [by apply add64_sub64_cancel | done]. }
  by rewrite H.
Qed.

Lemma reserve_release_noop_witness :
  let js : jetStream MsgSetC := mkJetStream configGiB ∅ 100 200 in
  let d := Some (mkLimits 600 (-5) 0 0) in
  js_memReserved (reserveResources js d) = 700
  /\ js_storeReserved (reserveResources js d) = 200
  /\ releaseResources (reserveResources js d) d = js.
Proof.
  intros js d. split; [reflexivity|]. split; [reflexivity|].
  apply (reserve_release_noop js d); unfold in_int64, int64_min, int64_max; simpl; lia.
Defined.

(** ** Admission control *)

Section Admission.

Context {MsgSet : Type}.
Implicit Types (jsa : jsAccount MsgSet) (config : MsgSetConfig).

(** What the third step does in the code: it rejects exactly when the
    request's own cap is positive and exceeds the account's cap, whatever
    the sign of the latter; otherwise the account's cap is written into the
    configuration. *)
Lemma checkLimits_observables_step jsa config :
  reachesObservablesStep jsa config ->
  (fst (checkLimits jsa config) = Some "maximum observables exceeds account limit"
   <-> 0 < ms_MaxObservables config
       /\ MaxObservables (jsa_limits jsa) < ms_MaxObservables config)
  /\ (fst (checkLimits jsa config) <> Some "maximum observables exceeds account limit" ->
      ms_MaxObservables (snd (checkLimits jsa config)) = MaxObservables (jsa_limits jsa)).
Proof.
  intros [Hsets Hrep]. unfold checkLimits.
  assert (H1 : Z.ltb 0 (MaxMsgSets (jsa_limits jsa))
               && Z.leb (MaxMsgSets (jsa_limits jsa)) (Z.of_nat (size (jsa_msgSets jsa)))
               = false).
  { apply andb_false_iff. destruct Hsets; [left; lia | right; lia]. }
  rewrite H1, Hrep. simpl.
  destruct (Z.ltb_spec 0 (ms_MaxObservables config)) as [Hc|Hc];
    destruct (Z.ltb_spec (MaxObservables (jsa_limits jsa)) (ms_MaxObservables config))
      as [Hl|Hl]; simpl.
  - split; [split; [done | naive_solver] | done].
  - split; [|intros _; repeat case_match; done].
    split; [|lia]. intros H. exfalso. repeat case_match; simpl in H; congruence.
  - split; [|intros _; repeat case_match; done].
    split; [|lia]. intros H. exfalso. repeat case_match; simpl in H; congruence.
  - split; [|intros _; repeat case_match; done].
    split; [|lia]. intros H. exfalso. repeat case_match; simpl in H; congruence.
Qed.

End Admission.

(** C2, where the code departs from the claim: on an account whose
    MaxObservables limit is non-positive (unlimited), a request that reaches
    the third admission step with a positive MaxObservables of its own is
    rejected with "maximum observables exceeds account limit" and its
    configuration is left as it was, although the specified test, which
    looks at the sign of the account limit, lets it through. *)
Theorem checkLimits_rejects_on_unlimited_account {MsgSet : Type}
    (jsa : jsAccount MsgSet) (config : MsgSetConfig) :
  reachesObservablesStep jsa config ->
  MaxObservables (jsa_limits jsa) <= 0 ->
  0 < ms_MaxObservables config ->
  checkLimits jsa config = (Some "maximum observables exceeds account limit", config)
  /\ observablesRejected_spec (jsa_limits jsa) config = false.
Proof.
  intros [Hsets Hrep] Hlim Hcfg. split.
  - unfold checkLimits.
    replace (Z.ltb 0 (MaxMsgSets (jsa_limits jsa))
             && Z.leb (MaxMsgSets (jsa_limits jsa)) (Z.of_nat (size (jsa_msgSets jsa))))
      with false
      by (symmetry; apply andb_false_iff; destruct Hsets; [left; lia | right; lia]).
    rewrite Hrep. simpl.
    replace (Z.ltb 0 (ms_MaxObservables config)) with true by (symmetry; lia).
    replace (Z.ltb (MaxObservables (jsa_limits jsa)) (ms_MaxObservables config))
      with true by (symmetry; lia).
    done.
  - unfold observablesRejected_spec.
    replace (Z.ltb 0 (MaxObservables (jsa_limits jsa))) with false by (symmetry; lia).
    done.
Qed.

Lemma checkLimits_rejects_on_unlimited_account_witness :
  let jsa := jsAccountC (mkLimits (1024 * 1024 * 1024) (1024 * 1024 * 1024) (-1) (-1)) ∅ in
  checkLimits jsa (configC "S1" 5)
  = (Some "maximum observables exceeds account limit", configC "S1" 5)
  /\ observablesRejected_spec (jsa_limits jsa) (configC "S1" 5) = false.
Proof.
  intros jsa.
  apply (checkLimits_rejects_on_unlimited_account jsa (configC "S1" 5)).
  - split; [left; simpl; lia | reflexivity].
  - simpl; lia.
  - simpl; lia.
Defined.

(** ** Account enablement and limit update *)

Section AccountOps.

Context {MsgSet : Type}.
Variable pathJoin : list string -> string.
Variable accName : positive -> string.
Implicit Types (s : Server MsgSet) (js : jetStream MsgSet) (jsa : jsAccount MsgSet).
Implicit Types (l : JetStreamAccountLimits) (a : positive).

Lemma set_js_same s js : srv_js s = Some js -> set_js s (Some js) = s.
Proof. destruct s. simpl. by intros ->. Qed.

Lemma registered_true s a :
  a ∈ srv_registered s -> negb (bool_decide (a ∈ srv_registered s)) = false.
Proof. intros H. by rewrite bool_decide_eq_true_2. Qed.

End AccountOps.





(** ** The ledger invariant *)

Section Ledger.

Context {MsgSet : Type}.
Variable pathJoin : list string -> string.
Variable accName : positive -> string.
Implicit Types (s : Server MsgSet) (js : jetStream MsgSet) (jsa : jsAccount MsgSet).
Implicit Types (accs : gmap positive (jsAccount MsgSet)).
Implicit Types (f : JetStreamAccountLimits -> Z) (a : positive).

Lemma sumLimits_empty f : sumLimits (MsgSet := MsgSet) f ∅ = 0.
Proof. unfold sumLimits. by rewrite map_fold_empty. Qed.

Lemma sumLimits_insert f accs a jsa :
  accs !! a = None ->
  sumLimits f (<[a := jsa]> accs) = sumLimits f accs + f (jsa_limits jsa).
Proof.
  intros Hnone. unfold sumLimits.
  rewrite map_fold_insert_L; [done | intros; lia | done].
Qed.

Lemma sumLimits_delete f accs a jsa :
  accs !! a = Some jsa ->
  sumLimits f (delete a accs) = sumLimits f accs - f (jsa_limits jsa).
Proof.
  intros Hsome. unfold sumLimits.
  rewrite (map_fold_delete_L _ _ a jsa accs); [lia | intros; lia | done].
Qed.

Lemma sumLimits_update f accs a jsa jsa' :
  accs !! a = Some jsa ->
  sumLimits f (<[a := jsa']> accs)
  = sumLimits f accs - f (jsa_limits jsa) + f (jsa_limits jsa').
Proof.
  intros Hsome. rewrite <- insert_delete_eq.
  rewrite sumLimits_insert by apply lookup_delete_eq.
  by rewrite (sumLimits_delete f accs a jsa).
Qed.

(** A guarded addition on a counter that is the wrapped value of [t]. *)
Lemma reserve_counter (t x : Z) :
  (if Z.ltb 0 x then add64 (wrap64 t) x else wrap64 t) = wrap64 (t + Z.max 0 x).
Proof.
  destruct (Z.ltb_spec 0 x).
  - unfold add64. rewrite wrap64_add_l. f_equal; lia.
  - f_equal; lia.
Qed.

Lemma release_counter (t x : Z) :
  (if Z.ltb 0 x then sub64 (wrap64 t) x else wrap64 t) = wrap64 (t - Z.max 0 x).
Proof.
  destruct (Z.ltb_spec 0 x).
  - unfold sub64. rewrite wrap64_sub_l. f_equal; lia.
  - f_equal; lia.
Qed.

Lemma enable_preserves a limits s :
  serverInv s -> serverInv (snd (Account_EnableJetStream pathJoin accName a limits s)).
Proof.
  intros (js & Hjs & Hm & Hs). unfold Account_EnableJetStream.
  destruct (negb _); [by exists js|]. rewrite Hjs.
  destruct (sufficientResources _ _); [by exists js|].
  destruct (js_accounts js !! a) eqn:Hacc; [by exists js|].
  eexists. split; [reflexivity|]. unfold ledgerInv. simpl.
  rewrite !sumLimits_insert by done. simpl. rewrite Hm, Hs.
  split; apply reserve_counter.
Qed.

Lemma update_preserves a limits s :
  serverInv s -> serverInv (snd (UpdateJetStreamLimits a limits s)).
Proof.
  intros (js & Hjs & Hm & Hs). unfold UpdateJetStreamLimits, lookupAccount.
  destruct (negb _); [by exists js|]. rewrite Hjs.
  destruct (js_accounts js !! a) as [jsa|] eqn:Hacc; [|by exists js].
  destruct (sufficientResources _ _); [by exists js|].
  eexists. split; [reflexivity|]. unfold ledgerInv. simpl.
  rewrite !(sumLimits_update _ _ _ jsa) by done. simpl. rewrite Hm, Hs.
  rewrite !release_counter, !reserve_counter. done.
Qed.

Lemma disable_preserves a s :
  serverInv s -> serverInv (snd (Account_DisableJetStream a s)).
Proof.
  intros (js & Hjs & Hm & Hs). unfold Account_DisableJetStream, lookupAccount.
  destruct (negb _); [by exists js|]. rewrite Hjs.
  destruct (js_accounts js !! a) as [jsa|] eqn:Hacc; simpl; [|by exists js].
  eexists. split; [reflexivity|]. unfold ledgerInv. simpl.
  rewrite !(sumLimits_delete _ _ _ jsa) by done. rewrite Hm, Hs.
  split; apply release_counter.
Qed.

Lemma applyOp_preserves op s :
  serverInv s -> serverInv (applyOp pathJoin accName s op).
Proof.
  destruct op; simpl;
    [apply enable_preserves | apply update_preserves | apply disable_preserves].
Qed.

Lemma runOps_preserves ops s :
  serverInv s -> serverInv (runOps pathJoin accName ops s).
Proof.
  unfold runOps. revert s. induction ops as [|op ops IH]; intros s Hs; simpl; [done|].
  apply IH. by apply applyOp_preserves.
Qed.

End Ledger.

(** C3, as amended: after any sequence of account enable, update-limits and
    disable operations on a freshly installed engine, whatever limits the
    operations were given, the engine is present, memReserved is the int64
    sum over the currently enabled accounts of max(0, limits.MaxMemory), and
    storeReserved is the same sum of max(0, limits.MaxStore). *)
Theorem ledger_sums_positive_parts {MsgSet : Type}
    (pathJoin : list string -> string) (accName : positive -> string)
    (cfg : JetStreamConfig) (registered : gset positive) (ops : list AccountOp) :
  exists js : jetStream MsgSet,
    srv_js (runOps pathJoin accName ops (newServer cfg registered)) = Some js
    /\ js_memReserved js = wrap64 (sumLimits (posPart MaxMemory) (js_accounts js))
    /\ js_storeReserved js = wrap64 (sumLimits (posPart MaxStore) (js_accounts js)).
Proof.
  apply (runOps_preserves pathJoin accName ops (newServer cfg registered)).
  eexists. split; [reflexivity|]. unfold ledgerInv. simpl.
  by rewrite !sumLimits_empty.
Qed.

(** C3, the claim as stated fails: enabling one account with MaxMemory and
    MaxStore of -1 is accepted and leaves both counters at 0, while the sums
    of the limits are -1. *)
Lemma ledger_not_sum_of_limits :
  exists js : jetStream MsgSetC,
    srv_js (runOps pathJoinC accNameC
              [OpEnable 1 (Some (mkLimits (-1) (-1) (-1) (-1)))]
              (newServer configGiB {[ 1%positive ]})) = Some js
    /\ js_accounts js !! 1%positive
       = Some (mkJsAccount (mkLimits (-1) (-1) (-1) (-1)) 0 0 0 0 "/tmp/js-test/A1" ∅)
    /\ js_memReserved js = 0
    /\ sumLimits MaxMemory (js_accounts js) = -1
    /\ js_memReserved js <> sumLimits MaxMemory (js_accounts js)
    /\ js_storeReserved js <> sumLimits MaxStore (js_accounts js).
Proof.
  eexists. split; [vm_compute; reflexivity|].
  split; [vm_compute; reflexivity|].
  split; [reflexivity|].
  split; [vm_compute; reflexivity|].
  split; vm_compute; discriminate.
Qed.

(** ** The message-delete request *)

Lemma length_Split (s : string) (sep : ascii) :
  List.length (Split s sep) = S (count_sep s sep).
Proof.
  induction s as [|c rest IH]; simpl; [done|].
  destruct (Ascii.eqb c sep); simpl; [by rewrite IH|].
  destruct (Split rest sep); simpl in *; [done | lia].
Qed.

(** C8: on a JetStream-enabled account, a delete-message request whose body
    does not split on single spaces into exactly two tokens is answered with
    exactly -ERR 'bad request' on the reply subject, and nothing else of the
    server state changes: the engine with its ledger and registries and the
    set of registered accounts are what they were. *)
Theorem jsMsgDeleteRequest_bad_request {MsgSet : Type}
    (EraseMsg : MsgSet -> Z -> bool * MsgSet)
    (c : client) (acc : positive) (subject reply msg : string) (s : Server MsgSet) :
  c_acc c = Some acc ->
  Account_JetStreamEnabled (Some acc) s = true ->
  List.length (Split msg " ") <> 2%nat ->
  srv_sent (jsMsgDeleteRequest EraseMsg (Some c) subject reply msg s)
  = (srv_sent s ++ [(acc, reply, "-ERR 'bad request'")])%list
  /\ srv_js (jsMsgDeleteRequest EraseMsg (Some c) subject reply msg s) = srv_js s
  /\ srv_registered (jsMsgDeleteRequest EraseMsg (Some c) subject reply msg s)
     = srv_registered s.
Proof.
  intros Hacc Hen Hlen. unfold jsMsgDeleteRequest. rewrite Hacc, Hen. simpl.
  replace (Nat.eqb (List.length (Split msg " ")) 2) with false
    by (symmetry; by apply Nat.eqb_neq).
  done.
Qed.

Lemma jsMsgDeleteRequest_bad_request_witness :
  srv_sent (jsMsgDeleteRequest EraseMsgC (Some (mkClient (Some 1%positive)))
              "$JS.MSGSET.MSG.DELETE" "_INBOX.1" "S1" serverC)
  = [(1%positive, "_INBOX.1", "-ERR 'bad request'")]
  /\ srv_js (jsMsgDeleteRequest EraseMsgC (Some (mkClient (Some 1%positive)))
               "$JS.MSGSET.MSG.DELETE" "_INBOX.1" "S1" serverC)
     = srv_js serverC.
Proof.
  pose proof (jsMsgDeleteRequest_bad_request EraseMsgC (mkClient (Some 1%positive))
                1%positive "$JS.MSGSET.MSG.DELETE" "_INBOX.1" "S1" serverC) as H.
  destruct H as (H1 & H2 & _).
  - reflexivity.
  - vm_compute. reflexivity.
  - simpl. lia.
  - split; [exact H1 | exact H2].
Defined.

(** The body splits into other than two tokens exactly when it does not
    hold exactly one space. *)
Lemma two_tokens_one_space (msg : string) :
  List.length (Split msg " ") = 2%nat <-> count_sep msg " " = 1%nat.
Proof. rewrite length_Split. lia. Qed.

(** *** What [Atoi] returns next to an error *)

Lemma ParseUint_loop_error (s : string) (n v : Z) (e : NumErr) :
  ParseUint_loop s n = (v, Some e) ->
  (e = ErrSyntax -> v = 0) /\ (e = ErrRange -> v = uint64_max).
Proof.
  revert n. induction s as [|c rest IH]; intros n; simpl; [done|].
  destruct (negb (is_digit c)); [intros [= <- <-]; done|].
  destruct (Z.leb _ n); [intros [= <- <-]; done|].
  destruct (Z.ltb uint64_max _); [intros [= <- <-]; done|].
  apply IH.
Qed.

Lemma ParseUint_error (s : string) (v : Z) (e : NumErr) :
  ParseUint s = (v, Some e) ->
  (e = ErrSyntax -> v = 0) /\ (e = ErrRange -> v = uint64_max).
Proof.
  destruct s as [|c rest]; [simpl; intros [= <- <-]; done|].
  unfold ParseUint. apply ParseUint_loop_error.
Qed.

Lemma ParseInt_error (s : string) (v : Z) (e : NumErr) :
  ParseInt s = (v, Some e) ->
  (e = ErrSyntax -> v = 0) /\ (e = ErrRange -> v = int64_max \/ v = int64_min).
Proof.
  unfold ParseInt. destruct s as [|c rest]; [intros [= <- <-]; done|].
  destruct (ParseUint _) as [un [[]|]]; [intros [= <- <-]; done| |];
    repeat case_match; intros [= <- <-]; split; intros; try done; auto.
Qed.

Lemma Atoi_error (s : string) (v : Z) (e : NumErr) :
  Atoi s = (v, Some e) ->
  (e = ErrSyntax -> v = 0) /\ (e = ErrRange -> v = int64_max \/ v = int64_min).
Proof.
  unfold Atoi. destruct (_ && _); [|apply ParseInt_error].
  destruct s as [|c rest]; [intros [= <- <-]; done|].
  repeat case_match; intros [= <- <-]; done.
Qed.

(** A token of fewer than 19 bytes that [Atoi] rejects is a syntax error,
    and the value is 0. *)
Lemma Atoi_short_error (s : string) (v : Z) (e : NumErr) :
  (String.length s < 19)%nat ->
  Atoi s = (v, Some e) -> v = 0 /\ e = ErrSyntax.
Proof.
  intros Hlen. unfold Atoi.
  destruct s as [|c rest]; [simpl; by intros [= <- <-]|].
  replace (Nat.ltb 0 (String.length (String c rest))
           && Nat.ltb (String.length (String c rest)) 19) with true.
  - repeat case_match; intros [= <- <-]; done.
  - symmetry. apply andb_true_iff. split; apply Nat.ltb_lt; simpl in *; lia.
Qed.

(** A token whose first byte is neither a digit nor a sign is a syntax
    error with value 0, whatever its length. *)
Lemma Atoi_leading_garbage (c : ascii) (rest : string) :
  is_digit c = false -> Ascii.eqb c "-" = false -> Ascii.eqb c "+" = false ->
  Atoi (String c rest) = (0, Some ErrSyntax).
Proof.
  intros Hd Hm Hp. unfold Atoi.
  destruct (Nat.ltb 0 _ && Nat.ltb _ 19).
  - rewrite Hm, Hp. simpl. by rewrite Hd.
  - unfold ParseInt, ParseUint. rewrite Hm, Hp. simpl. by rewrite Hd.
Qed.

Lemma store_MsgSet_sent {MsgSet : Type} (a : positive) (name : string)
    (mset : MsgSet) (s : Server MsgSet) :
  srv_sent (store_MsgSet a name mset s) = srv_sent s.
Proof. unfold store_MsgSet. by repeat case_match. Qed.

(** C10, as amended: for a delete-message request on an enabled account
    whose body has exactly two space-separated tokens and whose second token
    [Atoi] rejects, the handler sends one reply, which is not -ERR 'bad
    request'; the error is dropped and the sequence is the value [Atoi]
    returns next to it, which is 0 for a syntax error and the nearest int64
    bound for a range error; and when the set is found and EraseMsg on that
    sequence reports failure the reply is exactly "-ERR sequence [N] not
    found" for that value N. *)
Theorem jsMsgDeleteRequest_atoi_error {MsgSet : Type}
    (EraseMsg : MsgSet -> Z -> bool * MsgSet)
    (c : client) (acc : positive) (subject reply msg name tok : string)
    (v : Z) (e : NumErr) (s : Server MsgSet) :
  c_acc c = Some acc ->
  Account_JetStreamEnabled (Some acc) s = true ->
  Split msg " " = [name; tok] ->
  Atoi tok = (v, Some e) ->
  (exists r,
     srv_sent (jsMsgDeleteRequest EraseMsg (Some c) subject reply msg s)
     = (srv_sent s ++ [(acc, reply, r)])%list
     /\ r <> "-ERR 'bad request'")
  /\ (e = ErrSyntax -> v = 0)
  /\ (e = ErrRange -> v = int64_max \/ v = int64_min)
  /\ (forall mset mset1,
        Account_LookupMsgSet acc name s = inl mset ->
        EraseMsg mset (to_uint64 v) = (false, mset1) ->
        srv_sent (jsMsgDeleteRequest EraseMsg (Some c) subject reply msg s)
        = (srv_sent s
           ++ [(acc, reply, "-ERR sequence [" +:+ itoa v +:+ "] not found")])%list).
Proof.
  intros Hacc Hen Hsplit Hatoi.
  destruct (Atoi_error tok v e Hatoi) as [Hsyn Hrng].
  unfold jsMsgDeleteRequest. rewrite Hacc, Hen, Hsplit. simpl.
  rewrite Hatoi. simpl.
  split; [|split; [done|split; [done|]]].
  - destruct (Account_LookupMsgSet acc name s) as [mset|err] eqn:Hlook.
    + destruct (EraseMsg mset (to_uint64 v)) as [erased mset1].
      eexists. split.
      * simpl. by rewrite store_MsgSet_sent.
      * destruct erased; unfold OK, ErrPrefix; simpl; discriminate.
    + eexists. split; [reflexivity|].
      unfold Account_LookupMsgSet in Hlook.
      repeat case_match; try discriminate;
        injection Hlook as <-; unfold ErrPrefix; simpl; discriminate.
  - intros mset mset1 Hlook Herase. rewrite Hlook, Herase.
    simpl. by rewrite store_MsgSet_sent.
Qed.

Lemma jsMsgDeleteRequest_atoi_error_witness :
  Atoi "abc" = (0, Some ErrSyntax)
  /\ srv_sent (jsMsgDeleteRequest EraseMsgC (Some (mkClient (Some 1%positive)))
                "$JS.MSGSET.MSG.DELETE" "_INBOX.1" "S1 abc" serverC)
     = [(1%positive, "_INBOX.1", "-ERR sequence [0] not found")].
Proof.
  split; [reflexivity|].
  pose proof (jsMsgDeleteRequest_atoi_error EraseMsgC (mkClient (Some 1%positive))
                1%positive "$JS.MSGSET.MSG.DELETE" "_INBOX.1" "S1 abc" "S1" "abc"
                0 ErrSyntax serverC) as H.
  destruct H as (_ & _ & _ & H).
  - reflexivity.
  - vm_compute. reflexivity.
  - reflexivity.
  - reflexivity.
  - apply (H (mkMsgSetC (configC "S1" (-1)) []) (mkMsgSetC (configC "S1" (-1)) [])).
    + vm_compute. reflexivity.
    + reflexivity.
Defined.

(** C10, the claim as stated fails: the second token 99999999999999999999 is
    rejected by [Atoi] with a range error and the value 9223372036854775807;
    EraseMsg(0) would report failure on the empty set, yet the sequence used
    is not 0 and the reply is not "-ERR sequence [0] not found". *)
Lemma jsMsgDeleteRequest_range_error_not_zero :
  Split "S1 99999999999999999999" " " = ["S1"; "99999999999999999999"]
  /\ Atoi "99999999999999999999" = (9223372036854775807, Some ErrRange)
  /\ Account_LookupMsgSet 1%positive "S1" serverC
     = inl (mkMsgSetC (configC "S1" (-1)) [])
  /\ fst (EraseMsgC (mkMsgSetC (configC "S1" (-1)) []) 0) = false
  /\ srv_sent (jsMsgDeleteRequest EraseMsgC (Some (mkClient (Some 1%positive)))
                "$JS.MSGSET.MSG.DELETE" "_INBOX.1" "S1 99999999999999999999" serverC)
     = [(1%positive, "_INBOX.1", "-ERR sequence [9223372036854775807] not found")]
  /\ srv_sent (jsMsgDeleteRequest EraseMsgC (Some (mkClient (Some 1%positive)))
                "$JS.MSGSET.MSG.DELETE" "_INBOX.1" "S1 99999999999999999999" serverC)
     <> [(1%positive, "_INBOX.1", "-ERR sequence [0] not found")].
Proof.
  split; [reflexivity|]. split; [vm_compute; reflexivity|].
  split; [vm_compute; reflexivity|]. split; [reflexivity|].
  split; [vm_compute; reflexivity|]. vm_compute. discriminate.
Qed.

(** The digit loop stops at the first overflow: bytes after it are not
    looked at, so a token with trailing garbage after twenty digits is a
    range error too. *)
Example Atoi_overflow_before_garbage :
  Atoi "99999999999999999999x" = (9223372036854775807, Some ErrRange).
Proof. vm_compute. reflexivity. Qed.

(** ** Dynamic defaults at engine enablement *)

Lemma Account_EnableJetStream_config {MsgSet : Type}
    (pathJoin : list string -> string) (accName : positive -> string)
    (a : positive) (limits : option JetStreamAccountLimits)
    (s : Server MsgSet) (js : jetStream MsgSet) :
  srv_js s = Some js ->
  exists js1,
    srv_js (snd (Account_EnableJetStream pathJoin accName a limits s)) = Some js1
    /\ js_config js1 = js_config js.
Proof.
  intros Hjs. unfold Account_EnableJetStream. rewrite Hjs.
  repeat case_match; simpl; eauto.
Qed.

Lemma three_quarters (m : Z) :
  0 < m -> in_int64 m ->
  mul64 (Z.quot m 4) 3 = m / 4 * 3
  /\ 3 * m - 12 < 4 * (m / 4 * 3) <= 3 * m
  /\ (m mod 4 = 0 -> 4 * (m / 4 * 3) = 3 * m).
Proof.
  unfold in_int64, int64_min, int64_max. intros Hpos Hr.
  rewrite Z.quot_div_nonneg by lia.
  pose proof (Z.div_mod m 4 ltac:(lia)) as Hdm.
  pose proof (Z.mod_pos_bound m 4 ltac:(lia)) as Hb.
  split; [|split; [lia | lia]].
  unfold mul64. apply wrap64_id. unfold in_int64, int64_min, int64_max. lia.
Qed.

(** C7: when engine enablement goes ahead (stand-alone server, no engine
    yet) with a nil config, or with a config whose MaxMemory or MaxStore is
    zero or negative, the installed configuration has MaxStore 1024^4,
    MaxMemory sysMem / 4 * 3 when the detected system memory sysMem is
    positive (three quarters of it, rounded down to a multiple of three and
    exact when sysMem is a multiple of four) and 1024^2 * 256 otherwise, and,
    when no directory was given, the store directory <tmp>/jetstream; a given
    directory gets the jetstream component appended. *)
Theorem Server_EnableJetStream_dynamic_defaults {MsgSet : Type}
    (sysMem : Z) (TempDir : string) (pathJoin : list string -> string)
    (accName : positive -> string) (setupJetStream : JetStreamConfig -> option string)
    (globalAccountOnly : option positive)
    (config : option JetStreamConfig) (s : Server MsgSet) :
  srv_standAlone s = true ->
  srv_js s = None ->
  in_int64 sysMem ->
  match config with
  | None => True
  | Some c => cfg_MaxMemory c <= 0 \/ cfg_MaxStore c <= 0
  end ->
  exists js,
    srv_js (snd (Server_EnableJetStream sysMem TempDir pathJoin accName setupJetStream
                   globalAccountOnly config s)) = Some js
    /\ cfg_MaxStore (js_config js) = 1024 ^ 4
    /\ (0 < sysMem ->
        cfg_MaxMemory (js_config js) = sysMem / 4 * 3
        /\ 3 * sysMem - 12 < 4 * cfg_MaxMemory (js_config js) <= 3 * sysMem
        /\ (sysMem mod 4 = 0 -> 4 * cfg_MaxMemory (js_config js) = 3 * sysMem))
    /\ (sysMem <= 0 -> cfg_MaxMemory (js_config js) = 1024 ^ 2 * 256)
    /\ (match config with None => "" | Some c => cfg_StoreDir c end = "" ->
        cfg_StoreDir (js_config js) = pathJoin [TempDir; "jetstream"])
    /\ (forall dir, match config with None => "" | Some c => cfg_StoreDir c end = dir ->
        dir <> "" ->
        cfg_StoreDir (js_config js) = pathJoin [dir; "jetstream"]
        \/ (pathJoin [dir; "jetstream"] = ""
            /\ cfg_StoreDir (js_config js) = pathJoin [TempDir; "jetstream"])).
Proof.
  intros Hsa Hnone Hmem Hcfg. unfold Server_EnableJetStream.
  rewrite Hsa, Hnone. simpl.
  set (dir := match config with None => "" | Some c => cfg_StoreDir c end).
  set (dyn := dynJetStreamConfig sysMem TempDir pathJoin dir).
  assert (Hdyn : match config with
                 | None => dynJetStreamConfig sysMem TempDir pathJoin ""
                 | Some c =>
                     if Z.leb (cfg_MaxMemory c) 0 || Z.leb (cfg_MaxStore c) 0
                     then dynJetStreamConfig sysMem TempDir pathJoin (cfg_StoreDir c)
                     else c
                 end = dyn).
  { subst dyn dir. destruct config as [c|]; [|done].
    replace (Z.leb (cfg_MaxMemory c) 0 || Z.leb (cfg_MaxStore c) 0) with true; [done|].
    symmetry. apply orb_true_iff. destruct Hcfg; [left | right]; lia. }
  rewrite Hdyn.
  set (cfg := if String.eqb (cfg_StoreDir dyn) "" then _ else dyn).
  assert (Hstore : cfg_MaxStore cfg = 1024 ^ 4).
  { subst cfg. by destruct (String.eqb _ _). }
  assert (Hmax : cfg_MaxMemory cfg
                 = if Z.ltb 0 sysMem then mul64 (Z.quot sysMem 4) 3 else 1024 ^ 2 * 256).
  { subst cfg. by destruct (String.eqb _ _). }
  assert (Hdir1 : dir = "" -> cfg_StoreDir cfg = pathJoin [TempDir; "jetstream"]).
  { intros Hd. clear Hstore Hmax. subst cfg dyn. rewrite Hd. simpl.
    destruct (String.eqb (pathJoin [TempDir; JetStreamStoreDir]) ""); reflexivity. }
  assert (Hdir2 : forall d, dir = d -> d <> "" ->
            cfg_StoreDir cfg = pathJoin [d; "jetstream"]
            \/ (pathJoin [d; "jetstream"] = ""
                /\ cfg_StoreDir cfg = pathJoin [TempDir; "jetstream"])).
  { intros d Hd Hne. clear Hstore Hmax Hdir1. subst cfg dyn. rewrite Hd. simpl.
    assert (Hdne : String.eqb d "" = false) by (by apply String.eqb_neq).
    rewrite Hdne. simpl. unfold JetStreamStoreDir.
    destruct (String.eqb_spec (pathJoin [d; "jetstream"]) "") as [Heq|Hneq].
    - right. by split.
    - left. unfold dynJetStreamConfig. simpl. by rewrite Hdne. }
  assert (Hgoal : forall js : jetStream MsgSet, js_config js = cfg ->
            cfg_MaxStore (js_config js) = 1024 ^ 4
            /\ (0 < sysMem ->
                cfg_MaxMemory (js_config js) = sysMem / 4 * 3
                /\ 3 * sysMem - 12 < 4 * cfg_MaxMemory (js_config js) <= 3 * sysMem
                /\ (sysMem mod 4 = 0 -> 4 * cfg_MaxMemory (js_config js) = 3 * sysMem))
            /\ (sysMem <= 0 -> cfg_MaxMemory (js_config js) = 1024 ^ 2 * 256)
            /\ (dir = "" -> cfg_StoreDir (js_config js) = pathJoin [TempDir; "jetstream"])
            /\ (forall d, dir = d -> d <> "" ->
                cfg_StoreDir (js_config js) = pathJoin [d; "jetstream"]
                \/ (pathJoin [d; "jetstream"] = ""
                    /\ cfg_StoreDir (js_config js) = pathJoin [TempDir; "jetstream"]))).
  { intros js ->. split; [done|]. split; [|split; [|done]].
    - intros Hpos. rewrite Hmax.
      replace (Z.ltb 0 sysMem) with true by (symmetry; lia).
      destruct (three_quarters sysMem Hpos Hmem) as (-> & H2 & H3). done.
    - intros Hle. rewrite Hmax.
      by replace (Z.ltb 0 sysMem) with false by (symmetry; lia). }
  destruct (setupJetStream cfg); [eexists; split; [reflexivity | by apply Hgoal]|].
  destruct globalAccountOnly as [g|]; [|eexists; split; [reflexivity | by apply Hgoal]].
  match goal with
  | |- context [Account_EnableJetStream pathJoin accName g None ?s1] =>
      destruct (Account_EnableJetStream_config pathJoin accName g None s1
                  (mkJetStream cfg ∅ 0 0) eq_refl) as (js1 & Hjs1 & Hc1);
      destruct (Account_EnableJetStream pathJoin accName g None s1) as [[err|] s2]
  end; simpl in *; exists js1; (split; [done | by apply Hgoal]).
Qed.

Lemma Server_EnableJetStream_dynamic_defaults_witness :
  exists js : jetStream MsgSetC,
    srv_js (snd (Server_EnableJetStream (8 * 1024 ^ 3) "/tmp" pathJoinC accNameC
                   (fun _ => None) None None (mkServer true None ∅ []))) = Some js
    /\ js_config js
       = mkJetStreamConfig (6 * 1024 ^ 3) (1024 ^ 4) "/tmp/jetstream".
Proof.
  destruct (Server_EnableJetStream_dynamic_defaults (MsgSet := MsgSetC)
              (8 * 1024 ^ 3) "/tmp" pathJoinC accNameC (fun _ => None) None None
              (mkServer true None ∅ []))
    as (js & Hjs & _).
  - reflexivity.
  - reflexivity.
  - unfold in_int64, int64_min, int64_max. lia.
  - exact I.
  - exists js. split; [exact Hjs|].
    simpl in Hjs. injection Hjs as <-. vm_compute. reflexivity.
Defined.

(** ** Recovery *)

Section RecoveryFacts.

Context {St MsgSetH ObsH ObservableConfig : Type}.
Variable pathJoin : list string -> string.
Variable comma : Z -> string.
Variable UnmarshalMsgSetConfig : string -> MsgSetConfig + string.
Variable UnmarshalObservableConfig : string -> ObservableConfig + string.
Variable AddMsgSet : MsgSetConfig -> St -> (MsgSetH + string) * St.
Variable Stats_Msgs : MsgSetH -> St -> Z.
Variable AddObservable : MsgSetH -> ObservableConfig -> St -> (ObsH + string) * St.
Variable readStoredState : ObsH -> St -> option string * St.

(** An entry without a metafile is skipped and the loop goes on, as the
    first three error branches and the decoding branch all do. *)
Lemma recoverMsgSets_missing_meta_skips storeDir d rest st log :
  fi_metaExists (mse_meta d) = false ->
  recoverMsgSets pathJoin comma UnmarshalMsgSetConfig UnmarshalObservableConfig
    AddMsgSet Stats_Msgs AddObservable readStoredState storeDir (d :: rest) st log
  = recoverMsgSets pathJoin comma UnmarshalMsgSetConfig UnmarshalObservableConfig
      AddMsgSet Stats_Msgs AddObservable readStoredState storeDir rest st
      (Warnf log "  Missing MsgSet metafile for %q"
         [pathJoin [storeDir; fi_Name (mse_meta d); JetStreamMetaFile]]).
Proof. intros H. simpl. by rewrite H. Qed.

Lemma recoverMsgSets_bad_json_skips storeDir d rest st log buf err :
  fi_metaExists (mse_meta d) = true ->
  fi_metaRead (mse_meta d) = inl buf ->
  fi_sumExists (mse_meta d) = true ->
  UnmarshalMsgSetConfig buf = inr err ->
  recoverMsgSets pathJoin comma UnmarshalMsgSetConfig UnmarshalObservableConfig
    AddMsgSet Stats_Msgs AddObservable readStoredState storeDir (d :: rest) st log
  = recoverMsgSets pathJoin comma UnmarshalMsgSetConfig UnmarshalObservableConfig
      AddMsgSet Stats_Msgs AddObservable readStoredState storeDir rest st
      (Warnf log "  Error unmarshalling MsgSet metafile: %v" [err]).
Proof. intros H1 H2 H3 H4. simpl. by rewrite H1, H2, H3, H4. Qed.

End RecoveryFacts.

(** C1, where the code departs from the claim: when the meta files of a
    directory parse and AddMsgSet returns an error, the loop writes the
    warning but does not skip the set; it goes on to call Stats on the nil
    handle and ends there with a nil dereference, whatever directories
    remain: none of them is visited. *)
Theorem recoverMsgSets_add_error_stops {St MsgSetH ObsH ObservableConfig : Type}
    (pathJoin : list string -> string) (comma : Z -> string)
    (UnmarshalMsgSetConfig : string -> MsgSetConfig + string)
    (UnmarshalObservableConfig : string -> ObservableConfig + string)
    (AddMsgSet : MsgSetConfig -> St -> (MsgSetH + string) * St)
    (Stats_Msgs : MsgSetH -> St -> Z)
    (AddObservable : MsgSetH -> ObservableConfig -> St -> (ObsH + string) * St)
    (readStoredState : ObsH -> St -> option string * St)
    (storeDir : string) (d : MsgSetEntry) (rest : list MsgSetEntry)
    (st st1 : St) (log : list LogEntry) (buf err : string) (cfg : MsgSetConfig) :
  fi_metaExists (mse_meta d) = true ->
  fi_metaRead (mse_meta d) = inl buf ->
  fi_sumExists (mse_meta d) = true ->
  UnmarshalMsgSetConfig buf = inl cfg ->
  AddMsgSet cfg st = (inr err, st1) ->
  recoverMsgSets pathJoin comma UnmarshalMsgSetConfig UnmarshalObservableConfig
    AddMsgSet Stats_Msgs AddObservable readStoredState storeDir (d :: rest) st log
  = (NilDereference, st1,
     (log ++ [mkLog LWarn "  Error recreating MsgSet: %v" [err]])%list).
Proof.
  intros Hmeta Hread Hsum Hjson Hadd. simpl.
  by rewrite Hmeta, Hread, Hsum, Hjson, Hadd.
Qed.

Lemma recoverMsgSets_add_error_stops_witness :
  let jsa := jsAccountC (mkLimits 0 0 1 (-1))
               {[ "S1" := mkMsgSetC (configC "S1" (-1)) [] ]} in
  recoverC [metaC "S2"; metaC "S3"] jsa
  = (NilDereference, jsa,
     [mkLog LWarn "  Error recreating MsgSet: %v"
        ["maximum number of message sets reached"]]).
Proof.
  intros jsa.
  apply (recoverMsgSets_add_error_stops pathJoinC itoa UnmarshalC UnmarshalObsC
           AddMsgSetC Stats_MsgsC AddObservableC readStoredStateC
           "/tmp/jetstream/A1" (metaC "S2") [metaC "S3"] jsa jsa []
           "S2" "maximum number of message sets reached" (configC "S2" 0)).
  - reflexivity.
  - reflexivity.
  - reflexivity.
  - reflexivity.
  - vm_compute. reflexivity.
Defined.

(** A whole run: an account limited to one message set with three sets on
    disk.  The first is restored, the second is refused, and the loop ends
    in the nil dereference with the third never restored. *)
Example recover_three_sets_limit_one :
  exists jsa log,
    recoverC [metaC "S1"; metaC "S2"; metaC "S3"] (jsAccountC (mkLimits 0 0 1 (-1)) ∅)
    = (NilDereference, jsa, log)
    /\ is_Some (jsa_msgSets jsa !! "S1")
    /\ jsa_msgSets jsa !! "S3" = None.
Proof.
  eexists _, _. split; [vm_compute; reflexivity|].
  split; [by eexists | reflexivity].
Qed.

(** With no limit on the number of sets the same directories are restored
    and the loop returns. *)
Example recover_three_sets_unlimited :
  exists jsa log,
    recoverC [metaC "S1"; metaC "S2"; metaC "S3"] (jsAccountC (mkLimits 0 0 (-1) (-1)) ∅)
    = (Returned, jsa, log)
    /\ is_Some (jsa_msgSets jsa !! "S3").
Proof.
  eexists _, _. split; [vm_compute; reflexivity|]. by eexists.
Qed.


(** * Further properties of the code *)

(** ** Usage accounting *)

Lemma add64_neg64_cancel (m d : Z) : in_int64 m -> add64 (add64 m d) (neg64 d) = m.
Proof.
  intros H. unfold add64, neg64. rewrite wrap64_add_r, wrap64_add_l.
  replace (m + d + - d) with m by lia. by apply wrap64_id.
Qed.

Lemma sub64_add64_cancel (m d : Z) : in_int64 m -> add64 (sub64 m d) d = m.
Proof.
  intros H. unfold add64, sub64. rewrite wrap64_add_l.
  replace (m - d + d) with m by lia. by apply wrap64_id.
Qed.

(** X1: adding a delta to the usage of one storage kind and then adding the
    negated delta (as int64 negation computes it) gives back the account
    state, for every delta; and an update of one kind leaves the counter and
    the exceeded test of the other kind alone. *)
Theorem updateUsage_roundtrip {MsgSet : Type} (jsa : jsAccount MsgSet)
    (kind : StorageType) (d : Z) :
  in_int64 (jsa_memUsed jsa) ->
  in_int64 (jsa_storeUsed jsa) ->
  updateUsage (updateUsage jsa kind d) kind (neg64 d) = jsa
  /\ jsa_storeUsed (updateUsage jsa MemoryStorage d) = jsa_storeUsed jsa
  /\ jsa_memUsed (updateUsage jsa FileStorage d) = jsa_memUsed jsa
  /\ limitsExceeded (updateUsage jsa MemoryStorage d) FileStorage
     = limitsExceeded jsa FileStorage
  /\ limitsExceeded (updateUsage jsa FileStorage d) MemoryStorage
     = limitsExceeded jsa MemoryStorage.
Proof.
  intros Hm Hs. split; [|done].
  destruct jsa as [l mr mu sr su dir sets]. simpl in *.
  destruct kind; unfold updateUsage, set_used; simpl;
    by rewrite add64_neg64_cancel.
Qed.

Lemma updateUsage_roundtrip_witness :
  let jsa := jsAccountC (mkLimits 100 100 (-1) (-1)) ∅ in
  limitsExceeded (updateUsage jsa MemoryStorage 150) MemoryStorage = true
  /\ updateUsage (updateUsage jsa MemoryStorage 150) MemoryStorage (neg64 150) = jsa.
Proof.
  intros jsa. split; [reflexivity|].
  apply (updateUsage_roundtrip jsa MemoryStorage 150);
    unfold in_int64, int64_min, int64_max; simpl; lia.
Defined.

(** ** Names *)

Lemma ContainsAny_spec (s : string) (chars : list ascii) :
  ContainsAny s chars = true
  <-> exists c, In c (list_ascii_of_string s) /\ In c chars.
Proof.
  induction s as [|c rest IH]; simpl.
  - split; [done | by intros (c & [] & _)].
  - rewrite orb_true_iff, existsb_exists, IH. split.
    + intros [(x & Hx & Heq) | (x & Hx1 & Hx2)].
      * apply Ascii.eqb_eq in Heq. subst x. exists c. auto.
      * exists x. auto.
    + intros (x & [<- | Hx1] & Hx2).
      * left. exists c. split; [done | apply Ascii.eqb_refl].
      * right. by exists x.
Qed.

(** X2: a name is valid exactly when it is not empty and none of its bytes
    is a dot, a star or a greater-than sign. *)
Theorem isValidName_spec (name : string) :
  isValidName name = true
  <-> name <> ""
      /\ forall c, In c (list_ascii_of_string name) ->
           c <> "."%char /\ c <> "*"%char /\ c <> ">"%char.
Proof.
  unfold isValidName. destruct name as [|c0 rest]; [split; [done | by intros [? _]]|].
  rewrite negb_true_iff. split.
  - intros Hno. split; [done|]. intros c Hc.
    repeat split; intros ->;
      (assert (Hyes : ContainsAny (String c0 rest) ["."; "*"; ">"]%char = true)
         by (apply ContainsAny_spec; eexists; split; [exact Hc | simpl; auto]));
      congruence.
  - intros [_ Hall]. apply not_true_is_false. intros Hyes.
    apply ContainsAny_spec in Hyes as (c & Hc & Hin).
    destruct (Hall c Hc) as (H1 & H2 & H3).
    simpl in Hin. destruct Hin as [<-|[<-|[<-|[]]]]; congruence.
Qed.

(** ** Splitting a request body *)

Lemma Split_nonempty (s : string) (sep : ascii) : Split s sep <> [].
Proof.
  destruct s as [|c rest]; simpl; [done|].
  destruct (Ascii.eqb c sep); [done|]. by destruct (Split rest sep).
Qed.

Lemma concat_head (sep : string) (c : ascii) (t : string) (ts : list string) :
  String.concat sep (String c t :: ts) = String c (String.concat sep (t :: ts)).
Proof. by destruct ts. Qed.

Lemma concat_empty_head (sep : ascii) (t : string) (ts : list string) :
  String.concat (String sep "") ("" :: t :: ts)
  = String sep (String.concat (String sep "") (t :: ts)).
Proof. reflexivity. Qed.

(** Joining the tokens of [Split] with the separator gives back the
    string, and no token contains the separator. *)
Theorem Split_concat (s : string) (sep : ascii) :
  String.concat (String sep "") (Split s sep) = s
  /\ Forall (fun t => count_sep t sep = 0%nat) (Split s sep).
Proof.
  induction s as [|c rest [IHc IHf]].
  - split; [done | by constructor].
  - pose proof (Split_nonempty rest sep) as Hne. simpl.
    destruct (Split rest sep) as [|t ts] eqn:E; [done|].
    destruct (Ascii.eqb_spec c sep) as [->|Hc].
    + split; [by rewrite concat_empty_head, IHc | by constructor].
    + split; [by rewrite concat_head, IHc|].
      inversion IHf as [|? ? Ht Hts]; subst. constructor; [|done].
      simpl. destruct (Ascii.eqb_spec c sep); [done|]. by rewrite Ht.
Qed.

(** A body made of a token without the separator, the separator and a
    second such token splits into exactly these two tokens. *)
Lemma Split_no_sep (t : string) (sep : ascii) :
  count_sep t sep = 0%nat -> Split t sep = [t].
Proof.
  induction t as [|c rest IH]; simpl; [done|].
  destruct (Ascii.eqb c sep); [done|]. intros H. by rewrite IH.
Qed.

Lemma Split_two_tokens (name tok : string) (sep : ascii) :
  count_sep name sep = 0%nat ->
  count_sep tok sep = 0%nat ->
  Split (name +:+ String sep tok) sep = [name; tok].
Proof.
  intros Hn Ht. induction name as [|c rest IH]; simpl in *.
  - rewrite Ascii.eqb_refl. by rewrite Split_no_sep.
  - destruct (Ascii.eqb c sep); [done|]. by rewrite IH.
Qed.

(** ** Decimal sequence numbers *)

Lemma digit_char_facts (d : Z) :
  0 <= d <= 9 ->
  is_digit (digit_char d) = true
  /\ digit_val (digit_char d) = d
  /\ Ascii.eqb (digit_char d) " " = false.
Proof.
  intros H.
  assert (Hd : d = 0 \/ d = 1 \/ d = 2 \/ d = 3 \/ d = 4 \/ d = 5 \/ d = 6
               \/ d = 7 \/ d = 8 \/ d = 9) by lia.
  repeat (destruct Hd as [-> | Hd]; [by vm_compute|]). subst d. by vm_compute.
Qed.

Lemma is_digit_not_sign (c : ascii) :
  is_digit c = true -> Ascii.eqb c "-" = false /\ Ascii.eqb c "+" = false.
Proof.
  intros H. split; destruct (Ascii.eqb_spec c "-"), (Ascii.eqb_spec c "+");
    subst; try done; by vm_compute in H.
Qed.

Lemma mod10_digit (n : Z) : 0 <= n mod 10 <= 9.
Proof. pose proof (Z.mod_pos_bound n 10 ltac:(lia)). lia. Qed.

(** The fast path reads back what [utoa_fuel] wrote in front of a string it
    can read. *)
Lemma Atoi_digits_utoa (fuel : nat) :
  forall (n : Z) (acc : string) (p v : Z),
    0 <= n -> n < 10 ^ Z.of_nat fuel ->
    (forall k, Atoi_digits acc k = Some (k * p + v)) ->
    exists p', forall k,
      Atoi_digits (utoa_fuel fuel n acc) k = Some (k * p' + (n * p + v)).
Proof.
  induction fuel as [|fuel IH]; intros n acc p v Hn Hlt Hacc.
  - simpl in *. assert (n = 0) by lia. subst n. exists p. intros k.
    rewrite Hacc. f_equal; lia.
  - destruct (digit_char_facts (n mod 10) (mod10_digit n)) as (Hd & Hv & _).
    assert (Hacc' : forall k,
               Atoi_digits (String (digit_char (n mod 10)) acc) k
               = Some (k * (10 * p) + (n mod 10 * p + v))).
    { intros k. simpl. rewrite Hd, Hv, Hacc. f_equal; lia. }
    cbn [utoa_fuel]. destruct (Z.ltb_spec n 10) as [Hsmall|Hbig].
    + exists (10 * p). intros k. rewrite Hacc'.
      rewrite Z.mod_small by lia. done.
    + assert (Hdiv : n / 10 < 10 ^ Z.of_nat fuel).
      { apply Z.div_lt_upper_bound; [lia|].
        rewrite Nat2Z.inj_succ, Z.pow_succ_r in Hlt by lia. lia. }
      destruct (IH (n / 10) _ (10 * p) (n mod 10 * p + v)
                  ltac:(apply Z.div_pos; lia) Hdiv Hacc') as [p' Hp'].
      exists p'. intros k. rewrite Hp'. f_equal.
      pose proof (Z.div_mod n 10 ltac:(lia)). nia.
Qed.

(** The same for the digit loop of [ParseUint], which also checks that the
    value stays below its cutoff. *)
Lemma ParseUint_loop_utoa (fuel : nat) :
  forall (n : Z) (acc : string) (p v : Z),
    0 <= n -> n < 10 ^ Z.of_nat fuel -> 1 <= p -> 0 <= v ->
    (forall k, 0 <= k -> k * p + v <= 2 ^ 63 ->
               ParseUint_loop acc k = (k * p + v, None)) ->
    exists p', 1 <= p' /\ forall k,
      0 <= k -> k * p' + (n * p + v) <= 2 ^ 63 ->
      ParseUint_loop (utoa_fuel fuel n acc) k = (k * p' + (n * p + v), None).
Proof.
  induction fuel as [|fuel IH]; intros n acc p v Hn Hlt Hp Hv Hacc.
  - simpl in *. assert (n = 0) by lia. subst n. exists p. split; [done|].
    intros k Hk Hb. rewrite Hacc by lia. f_equal; lia.
  - destruct (digit_char_facts (n mod 10) (mod10_digit n)) as (Hd & Hdv & _).
    pose proof (mod10_digit n) as Hm.
    assert (Hacc' : forall k, 0 <= k ->
               k * (10 * p) + (n mod 10 * p + v) <= 2 ^ 63 ->
               ParseUint_loop (String (digit_char (n mod 10)) acc) k
               = (k * (10 * p) + (n mod 10 * p + v), None)).
    { intros k Hk Hb. simpl. rewrite Hd, Hdv. simpl.
      change (uint64_max / 10 + 1) with 1844674407370955162.
      change uint64_max with 18446744073709551615.
      change (2 ^ 63) with 9223372036854775808 in *.
      assert (Hk10 : k * 10 + n mod 10 <= 9223372036854775808) by nia.
      replace (Z.leb 1844674407370955162 k) with false by (symmetry; lia).
      replace (Z.ltb 18446744073709551615 (k * 10 + n mod 10)) with false
        by (symmetry; lia).
      rewrite Hacc by nia. f_equal; lia. }
    cbn [utoa_fuel]. destruct (Z.ltb_spec n 10) as [Hsmall|Hbig].
    + exists (10 * p). split; [lia|]. intros k Hk Hb.
      assert (Hmod : n mod 10 = n) by (apply Z.mod_small; lia).
      rewrite Hacc' by (try done; rewrite Hmod; lia). by rewrite Hmod.
    + assert (Hdiv : n / 10 < 10 ^ Z.of_nat fuel).
      { apply Z.div_lt_upper_bound; [lia|].
        rewrite Nat2Z.inj_succ, Z.pow_succ_r in Hlt by lia. lia. }
      destruct (IH (n / 10) _ (10 * p) (n mod 10 * p + v)
                  ltac:(apply Z.div_pos; lia) Hdiv ltac:(lia) ltac:(nia) Hacc')
        as (p' & Hp' & Hloop).
      exists p'. split; [done|]. intros k Hk Hb.
      pose proof (Z.div_mod n 10 ltac:(lia)) as Hdm.
      replace (n * p + v) with (n / 10 * (10 * p) + (n mod 10 * p + v)) in * by nia.
      by apply Hloop.
Qed.

Lemma utoa_fuel_head (fuel : nat) :
  forall (n : Z) (acc : string),
    (fuel <> O \/ exists c rest, acc = String c rest /\ is_digit c = true) ->
    exists c rest, utoa_fuel fuel n acc = String c rest /\ is_digit c = true.
Proof.
  induction fuel as [|fuel IH]; intros n acc H.
  - destruct H as [H|H]; [done | exact H].
  - cbn [utoa_fuel].
    destruct (digit_char_facts (n mod 10) (mod10_digit n)) as (Hd & _ & _).
    destruct (Z.ltb n 10); [by eexists _, _|].
    apply IH. right. by eexists _, _.
Qed.

Lemma utoa_fuel_no_space (fuel : nat) :
  forall (n : Z) (acc : string),
    count_sep acc " " = 0%nat -> count_sep (utoa_fuel fuel n acc) " " = 0%nat.
Proof.
  induction fuel as [|fuel IH]; intros n acc H; [done|].
  cbn [utoa_fuel].
  destruct (digit_char_facts (n mod 10) (mod10_digit n)) as (_ & _ & Hsp).
  assert (H' : count_sep (String (digit_char (n mod 10)) acc) " " = 0%nat)
    by (simpl; by rewrite Hsp).
  destruct (Z.ltb n 10); [done | by apply IH].
Qed.

Lemma itoa_no_space (z : Z) : count_sep (itoa z) " " = 0%nat.
Proof.
  unfold itoa. destruct (Z.ltb z 0).
  - change (count_sep (String "-" ?s) " ") with (count_sep s " ").
    by apply utoa_fuel_no_space.
  - by apply utoa_fuel_no_space.
Qed.

Lemma pow10_20 (n : Z) : n <= 2 ^ 63 -> n < 10 ^ Z.of_nat 20.
Proof.
  change (2 ^ 63) with 9223372036854775808.
  change (10 ^ Z.of_nat 20) with 100000000000000000000. lia.
Qed.

Lemma Atoi_digits_itoa_abs (n : Z) :
  0 <= n <= 2 ^ 63 ->
  Atoi_digits (utoa_fuel 20 n "") 0 = Some n
  /\ ParseUint_loop (utoa_fuel 20 n "") 0 = (n, None).
Proof.
  intros [H0 H1]. split.
  - destruct (Atoi_digits_utoa 20 n "" 1 0 H0 (pow10_20 n H1)) as [p' Hp'].
    { intros k. simpl. f_equal; lia. }
    rewrite Hp'. f_equal; lia.
  - destruct (ParseUint_loop_utoa 20 n "" 1 0 H0 (pow10_20 n H1)) as (p' & _ & Hp');
      [lia | lia | |].
    { intros k Hk Hb. simpl. f_equal; lia. }
    rewrite Hp' by lia. f_equal; lia.
Qed.

(** Reading back a printed sequence number: [Atoi] accepts what [%d]
    prints for an int64 and returns the number. *)
Lemma Atoi_itoa (z : Z) : in_int64 z -> Atoi (itoa z) = (z, None).
Proof.
  unfold in_int64, int64_min, int64_max. intros Hz.
  change (2 ^ 63) with 9223372036854775808 in Hz.
  unfold itoa. destruct (Z.ltb_spec z 0) as [Hneg|Hpos].
  - destruct (Atoi_digits_itoa_abs (- z)) as [Hfast Hslow].
    { change (2 ^ 63) with 9223372036854775808. lia. }
    destruct (utoa_fuel_head 20 (- z) "" ltac:(by left)) as (c & rest & Hu & Hc).
    unfold Atoi. destruct (_ && _).
    + change (Ascii.eqb "-" "-") with true. cbn [orb andb].
      rewrite Hfast, Hu. simpl. f_equal. lia.
    + unfold ParseInt. change (Ascii.eqb "-" "-") with true.
      change (Ascii.eqb "-" "+") with false. cbn [orb andb negb].
      unfold ParseUint. rewrite Hu in *. rewrite Hslow.
      replace (Z.ltb (2 ^ 63) (- z)) with false
        by (symmetry; change (2 ^ 63) with 9223372036854775808; lia).
      f_equal. unfold neg64. rewrite Z.opp_involutive. apply wrap64_id.
      unfold in_int64, int64_min, int64_max.
      change (2 ^ 63) with 9223372036854775808. lia.
  - destruct (Atoi_digits_itoa_abs z) as [Hfast Hslow].
    { change (2 ^ 63) with 9223372036854775808. lia. }
    destruct (utoa_fuel_head 20 z "" ltac:(by left)) as (c & rest & Hu & Hc).
    destruct (is_digit_not_sign c Hc) as [Hm Hp].
    unfold Atoi. rewrite Hu in *. destruct (_ && _).
    + rewrite Hm, Hp. cbn [orb andb]. by rewrite Hfast.
    + unfold ParseInt. rewrite Hm, Hp. cbn [orb andb negb].
      unfold ParseUint. rewrite Hslow.
      replace (Z.leb (2 ^ 63) z) with false
        by (symmetry; change (2 ^ 63) with 9223372036854775808; lia).
      f_equal. apply wrap64_id. unfold in_int64, int64_min, int64_max.
      change (2 ^ 63) with 9223372036854775808. lia.
Qed.

(** ** Request handlers *)

Section HandlerFacts.

Context {MsgSet : Type}.
Implicit Types (s : Server MsgSet) (a acc : positive) (name : string) (mset : MsgSet).




Lemma store_MsgSet_lookup a name mset mset0 s :
  Account_LookupMsgSet a name s = inl mset0 ->
  Account_LookupMsgSet a name (store_MsgSet a name mset s) = inl mset.
Proof.
  unfold Account_LookupMsgSet, store_MsgSet.
  destruct (srv_js s) as [js|] eqn:Hjs; simpl; [|done].
  destruct (js_accounts js !! a) as [jsa|] eqn:Hjsa; simpl; [|by rewrite Hjs].
  intros _. rewrite lookup_insert_eq. simpl. by rewrite lookup_insert_eq.
Qed.

Lemma LookupMsgSet_errors a name s err :
  Account_LookupMsgSet a name s = inr err ->
  err = "jetstream not enabled" \/ err = "msgset not found".
Proof.
  unfold Account_LookupMsgSet. repeat case_match; intros [= <-]; auto.
Qed.

Lemma err_reply_prefix (err : string) :
  String.prefix "-ERR " (ErrPrefix +:+ " " +:+ err) = true
  /\ ErrPrefix +:+ " " +:+ err <> "+OK".
Proof. split; [by destruct err | done]. Qed.

End HandlerFacts.

(** X3: whatever the client, the body and the state, the delete-message
    handler sends at most one message: none when the client or its account
    is nil (and then nothing changes at all), and otherwise exactly one, to
    the client's account on the reply subject, which is either +OK or a text
    that begins with "-ERR ". *)
Theorem jsMsgDeleteRequest_replies_once {MsgSet : Type}
    (EraseMsg : MsgSet -> Z -> bool * MsgSet)
    (c : option client) (subject reply msg : string) (s : Server MsgSet) :
  match c ≫= c_acc with
  | None => jsMsgDeleteRequest EraseMsg c subject reply msg s = s
  | Some acc =>
      exists r,
        srv_sent (jsMsgDeleteRequest EraseMsg c subject reply msg s)
        = (srv_sent s ++ [(acc, reply, r)])%list
        /\ (r = "+OK" \/ String.prefix "-ERR " r = true)
  end.
Proof.
  destruct c as [[[acc|]]|]; simpl; [|done|done].
  destruct (negb _); [by eexists; split; [reflexivity | right]|].
  destruct (negb (Nat.eqb _ 2)); [by eexists; split; [reflexivity | right]|].
  destruct (Account_LookupMsgSet _ _ _) as [mset|err].
  - destruct (EraseMsg _ _) as [erased mset1]. eexists. split.
    + simpl. by rewrite store_MsgSet_sent.
    + destruct erased; [by left | right]. unfold ErrPrefix. reflexivity.
  - eexists. split; [reflexivity|]. right. apply err_reply_prefix.
Qed.

(** X4: on an enabled account the delete-message handler answers -ERR 'bad
    request' exactly when the body does not hold exactly one space; a body
    with one space is never a bad request, whatever its two tokens are. *)
Theorem jsMsgDeleteRequest_bad_request_iff {MsgSet : Type}
    (EraseMsg : MsgSet -> Z -> bool * MsgSet)
    (c : client) (acc : positive) (subject reply msg : string) (s : Server MsgSet) :
  c_acc c = Some acc ->
  Account_JetStreamEnabled (Some acc) s = true ->
  exists r,
    srv_sent (jsMsgDeleteRequest EraseMsg (Some c) subject reply msg s)
    = (srv_sent s ++ [(acc, reply, r)])%list
    /\ (r = "-ERR 'bad request'" <-> count_sep msg " " <> 1%nat).
Proof.
  intros Hacc Hen. unfold jsMsgDeleteRequest. rewrite Hacc, Hen. simpl.
  rewrite length_Split.
  destruct (Nat.eqb_spec (S (count_sep msg " ")) 2) as [Heq|Hne]; simpl.
  - destruct (Account_LookupMsgSet _ _ _) as [mset|err] eqn:Hlook.
    + destruct (EraseMsg _ _) as [erased mset1]. eexists. split.
      * simpl. by rewrite store_MsgSet_sent.
      * split; [|lia]. destruct erased; unfold OK, ErrPrefix; simpl; discriminate.
    + eexists. split; [reflexivity|]. split; [|lia].
      destruct (LookupMsgSet_errors _ _ _ _ Hlook) as [-> | ->]; discriminate.
  - eexists. split; [reflexivity|]. split; [lia | done].
Qed.

Lemma jsMsgDeleteRequest_bad_request_iff_witness :
  exists r,
    srv_sent (jsMsgDeleteRequest EraseMsgC (Some (mkClient (Some 1%positive)))
                "$JS.MSGSET.MSG.DELETE" "_INBOX.1" "S1 7 8" serverC)
    = [(1%positive, "_INBOX.1", r)]
    /\ (r = "-ERR 'bad request'" <-> count_sep "S1 7 8" " " <> 1%nat).
Proof.
  apply (jsMsgDeleteRequest_bad_request_iff EraseMsgC (mkClient (Some 1%positive))
           1%positive "$JS.MSGSET.MSG.DELETE" "_INBOX.1" "S1 7 8" serverC).
  - reflexivity.
  - vm_compute. reflexivity.
Defined.

(** X5: a well-formed request reaches the store with the number the client
    wrote.  For a set name without a space and an int64 sequence printed in
    decimal, the body "<name> <seq>" makes the handler look up that set, call
    EraseMsg on it with that sequence converted to uint64, answer +OK when
    the message was erased and "-ERR sequence [<seq>] not found" when not,
    and leave the set in the state EraseMsg returned. *)
Theorem jsMsgDeleteRequest_wellformed {MsgSet : Type}
    (EraseMsg : MsgSet -> Z -> bool * MsgSet)
    (c : client) (acc : positive) (subject reply name : string) (seq : Z)
    (s : Server MsgSet) (mset mset1 : MsgSet) (erased : bool) :
  c_acc c = Some acc ->
  count_sep name " " = 0%nat ->
  in_int64 seq ->
  Account_LookupMsgSet acc name s = inl mset ->
  EraseMsg mset (to_uint64 seq) = (erased, mset1) ->
  srv_sent (jsMsgDeleteRequest EraseMsg (Some c) subject reply
              (name +:+ " " +:+ itoa seq) s)
  = (srv_sent s
     ++ [(acc, reply,
          if erased then "+OK"
          else "-ERR sequence [" +:+ itoa seq +:+ "] not found")])%list
  /\ Account_LookupMsgSet acc name
       (jsMsgDeleteRequest EraseMsg (Some c) subject reply
          (name +:+ " " +:+ itoa seq) s)
     = inl mset1.
Proof.
  intros Hacc Hname Hseq Hlook Herase.
  assert (Hen : Account_JetStreamEnabled (Some acc) s = true).
  { unfold Account_JetStreamEnabled, Account_LookupMsgSet in *.
    destruct (srv_js s) as [js|]; [|done]. simpl in Hlook.
    destruct (js_accounts js !! acc); [|done]. by apply bool_decide_eq_true_2. }
  unfold jsMsgDeleteRequest. rewrite Hacc, Hen.
  change (name +:+ " " +:+ itoa seq) with (name +:+ String " " (itoa seq)).
  rewrite (Split_two_tokens name (itoa seq) " " Hname (itoa_no_space seq)).
  simpl. rewrite (Atoi_itoa seq Hseq). simpl. rewrite Hlook, Herase. split.
  - simpl. rewrite store_MsgSet_sent. by destruct erased.
  - change (Account_LookupMsgSet acc name (store_MsgSet acc name mset1 s) = inl mset1).
    by eapply store_MsgSet_lookup.
Qed.

Lemma jsMsgDeleteRequest_wellformed_witness :
  let s := store_MsgSet 1%positive "S1" (mkMsgSetC (configC "S1" (-1)) [5; 7; 9]) serverC in
  srv_sent (jsMsgDeleteRequest EraseMsgC (Some (mkClient (Some 1%positive)))
              "$JS.MSGSET.MSG.DELETE" "_INBOX.1" "S1 7" s)
  = [(1%positive, "_INBOX.1", "+OK")]
  /\ Account_LookupMsgSet 1%positive "S1"
       (jsMsgDeleteRequest EraseMsgC (Some (mkClient (Some 1%positive)))
          "$JS.MSGSET.MSG.DELETE" "_INBOX.1" "S1 7" s)
     = inl (mkMsgSetC (configC "S1" (-1)) [5; 9]).
Proof.
  intros s.
  apply (jsMsgDeleteRequest_wellformed EraseMsgC (mkClient (Some 1%positive)) 1%positive
           "$JS.MSGSET.MSG.DELETE" "_INBOX.1" "S1" 7 s
           (mkMsgSetC (configC "S1" (-1)) [5; 7; 9])
           (mkMsgSetC (configC "S1" (-1)) [5; 9]) true).
  - reflexivity.
  - reflexivity.
  - unfold in_int64, int64_min, int64_max. lia.
  - vm_compute. reflexivity.
  - reflexivity.
Defined.





(** X8: the probe tells apart enabled and disabled accounts across the
    account operations: right after a successful enablement of an account
    the probe answers +OK for it, and right after a successful disablement it
    answers -ERR 'jetstream not enabled for account'. *)
Theorem isJsEnabledRequest_follows_enablement {MsgSet : Type}
    (pathJoin : list string -> string) (accName : positive -> string)
    (c : client) (a : positive) (subject reply msg : string)
    (limits : option JetStreamAccountLimits) (s : Server MsgSet) :
  c_acc c = Some a ->
  (fst (Account_EnableJetStream pathJoin accName a limits s) = None ->
   srv_sent (isJsEnabledRequest (Some c) subject reply msg
               (snd (Account_EnableJetStream pathJoin accName a limits s)))
   = (srv_sent s ++ [(a, reply, "+OK")])%list)
  /\ (fst (Account_DisableJetStream a s) = None ->
      srv_sent (isJsEnabledRequest (Some c) subject reply msg
                  (snd (Account_DisableJetStream a s)))
      = (srv_sent s ++ [(a, reply, "-ERR 'jetstream not enabled for account'")])%list).
Proof.
  intros Hacc. unfold isJsEnabledRequest. rewrite Hacc. split.
  - unfold Account_EnableJetStream.
    destruct (negb _); [done|]. destruct (srv_js s) as [js|]; [|done].
    destruct (sufficientResources _ _); [done|].
    destruct (js_accounts js !! a) eqn:Hnone; [done|]. intros _.
    unfold Account_JetStreamEnabled. simpl.
    by rewrite lookup_insert_eq, bool_decide_eq_true_2 by eauto.
  - unfold Account_DisableJetStream, lookupAccount.
    destruct (negb _); [done|]. destruct (srv_js s) as [js|]; [|done].
    destruct (js_accounts js !! a) eqn:Hsome; simpl; [|done]. intros _.
    unfold Account_JetStreamEnabled. simpl.
    rewrite lookup_delete_eq, bool_decide_eq_false_2; [done|].
    by intros [? ?].
Qed.

Lemma isJsEnabledRequest_follows_enablement_witness :
  srv_sent (isJsEnabledRequest (Some (mkClient (Some 1%positive))) "$JS.ENABLED"
              "_INBOX.1" "" (snd (Account_DisableJetStream 1 serverC)))
  = [(1%positive, "_INBOX.1", "-ERR 'jetstream not enabled for account'")].
Proof.
  apply (isJsEnabledRequest_follows_enablement pathJoinC accNameC
           (mkClient (Some 1%positive)) 1 "$JS.ENABLED" "_INBOX.1" "" None serverC).
  - reflexivity.
  - vm_compute. reflexivity.
Defined.

(** ** Account operations on the engine *)

(** X9: account enablement never takes the engine over its capacity.  If
    both counters are within the configured maxima before the call, they are
    within them after it, whether the call succeeds or fails and whatever
    limits it was given. *)
Theorem Account_EnableJetStream_within_capacity {MsgSet : Type}
    (pathJoin : list string -> string) (accName : positive -> string)
    (a : positive) (limits : option JetStreamAccountLimits)
    (s : Server MsgSet) (js : jetStream MsgSet) :
  srv_js s = Some js ->
  js_memReserved js <= cfg_MaxMemory (js_config js) ->
  js_storeReserved js <= cfg_MaxStore (js_config js) ->
  exists js1,
    srv_js (snd (Account_EnableJetStream pathJoin accName a limits s)) = Some js1
    /\ js_config js1 = js_config js
    /\ js_memReserved js1 <= cfg_MaxMemory (js_config js1)
    /\ js_storeReserved js1 <= cfg_MaxStore (js_config js1).
Proof.
  intros Hjs Hm Hs. unfold Account_EnableJetStream.
  destruct (negb _); [by exists js|]. rewrite Hjs.
  set (l := match limits with Some l => l | None => dynamicAccountLimits js end).
  destruct (sufficientResources js (Some l)) eqn:Hsuf; [by exists js|].
  destruct (js_accounts js !! a); [by exists js|].
  eexists. split; [reflexivity|]. simpl. split; [done|].
  unfold sufficientResources in Hsuf.
  destruct (Z.ltb_spec (cfg_MaxMemory (js_config js))
              (add64 (js_memReserved js) (MaxMemory l))); [done|].
  destruct (Z.ltb_spec (cfg_MaxStore (js_config js))
              (add64 (js_storeReserved js) (MaxStore l))); [done|].
  split; case_match; lia.
Qed.

Lemma Account_EnableJetStream_within_capacity_witness :
  exists js1 : jetStream MsgSetC,
    srv_js (snd (Account_EnableJetStream pathJoinC accNameC 2
                   (Some (mkLimits (600 * 1024 * 1024) 0 0 0))
                   (snd (Account_EnableJetStream pathJoinC accNameC 1
                           (Some (mkLimits (600 * 1024 * 1024) 0 0 0))
                           (newServer configGiB {[ 1%positive; 2%positive ]})))))
    = Some js1
    /\ js_memReserved js1 = 600 * 1024 * 1024.
Proof.
  destruct (Account_EnableJetStream_within_capacity pathJoinC accNameC 2
              (Some (mkLimits (600 * 1024 * 1024) 0 0 0))
              (snd (Account_EnableJetStream pathJoinC accNameC 1
                      (Some (mkLimits (600 * 1024 * 1024) 0 0 0))
                      (newServer (MsgSet := MsgSetC) configGiB {[ 1%positive; 2%positive ]})))
              (mkJetStream configGiB
                 {[ 1%positive := mkJsAccount (mkLimits (600 * 1024 * 1024) 0 0 0) 0 0 0 0
                                    "/tmp/js-test/A1" ∅ ]}
                 (600 * 1024 * 1024) 0))
    as (js1 & Hjs1 & _).
  - vm_compute. reflexivity.
  - simpl. lia.
  - simpl. lia.
  - exists js1. split; [exact Hjs1|].
    vm_compute in Hjs1. injection Hjs1 as <-. reflexivity.
Defined.

(** X10: enabling an account that was not enabled and then disabling it
    gives back the server state: the registry has no entry for the account
    and both counters return to their prior int64 values. *)
Theorem enable_then_disable_restores {MsgSet : Type}
    (pathJoin : list string -> string) (accName : positive -> string)
    (a : positive) (limits : option JetStreamAccountLimits)
    (s : Server MsgSet) (js : jetStream MsgSet) :
  srv_js s = Some js ->
  in_int64 (js_memReserved js) ->
  in_int64 (js_storeReserved js) ->
  fst (Account_EnableJetStream pathJoin accName a limits s) = None ->
  Account_DisableJetStream a (snd (Account_EnableJetStream pathJoin accName a limits s))
  = (None, s).
Proof.
  intros Hjs Hm Hs. unfold Account_EnableJetStream.
  destruct (bool_decide (a ∈ srv_registered s)) eqn:Hreg; cbn [negb]; [|done].
  rewrite Hjs.
  set (l := match limits with Some l => l | None => dynamicAccountLimits js end).
  destruct (sufficientResources js (Some l)); [done|].
  destruct (js_accounts js !! a) eqn:Hnone; [done|]. intros _. simpl.
  unfold Account_DisableJetStream, lookupAccount. simpl. rewrite Hreg. simpl.
  rewrite lookup_insert_eq. simpl. f_equal.
  destruct s as [sa sjs reg sent]. simpl in *. subst sjs. unfold set_js. simpl.
  do 2 f_equal. destruct js as [cfg accs m st]. simpl in *.
  unfold releaseResources, set_accounts. simpl.
  rewrite delete_insert_eq, delete_id by done. f_equal.
  - destruct (Z.ltb 0 (MaxMemory l)); [by apply add64_sub64_cancel | done].
  - destruct (Z.ltb 0 (MaxStore l)); [by apply add64_sub64_cancel | done].
Qed.

Lemma enable_then_disable_restores_witness :
  Account_DisableJetStream 2
    (snd (Account_EnableJetStream pathJoinC accNameC 2 (Some (mkLimits 0 0 0 0))
            (mkServer true (srv_js serverC) {[ 1%positive; 2%positive ]} [])))
  = (None, mkServer true (srv_js serverC) {[ 1%positive; 2%positive ]} []).
Proof.
  apply (enable_then_disable_restores pathJoinC accNameC 2 (Some (mkLimits 0 0 0 0))
           (mkServer true (srv_js serverC) {[ 1%positive; 2%positive ]} [])
           (mkJetStream configGiB
              {[ 1%positive :=
                   jsAccountC (mkLimits (1024 * 1024 * 1024) (1024 * 1024 * 1024) (-1) (-1))
                     {[ "S1" := mkMsgSetC (configC "S1" (-1)) [] ]} ]}
              (1024 * 1024 * 1024) (1024 * 1024 * 1024))).
  - reflexivity.
  - unfold in_int64, int64_min, int64_max. simpl. lia.
  - unfold in_int64, int64_min, int64_max. simpl. lia.
  - vm_compute. reflexivity.
Defined.

(** X11: a successful disablement removes exactly the account's entry: the
    account is no longer enabled, a second disablement fails with "jetstream
    not enabled for account" and changes nothing, and the entries of all
    other accounts are what they were. *)
Theorem Account_DisableJetStream_removes_entry {MsgSet : Type}
    (a : positive) (s : Server MsgSet) :
  fst (Account_DisableJetStream a s) = None ->
  Account_JetStreamEnabled (Some a) (snd (Account_DisableJetStream a s)) = false
  /\ Account_DisableJetStream a (snd (Account_DisableJetStream a s))
     = (Some "jetstream not enabled for account", snd (Account_DisableJetStream a s))
  /\ (forall b, b <> a ->
        (srv_js (snd (Account_DisableJetStream a s)) ≫= λ js, js_accounts js !! b)
        = (srv_js s ≫= λ js, js_accounts js !! b)).
Proof.
  unfold Account_DisableJetStream, lookupAccount.
  destruct (bool_decide (a ∈ srv_registered s)) eqn:Hreg; simpl; [|done].
  destruct (srv_js s) as [js|] eqn:Hjs; [|done].
  destruct (js_accounts js !! a) as [jsa|] eqn:Hjsa; simpl; [|done]. intros _.
  split; [|split].
  - unfold Account_JetStreamEnabled. simpl.
    rewrite lookup_delete_eq. apply bool_decide_eq_false_2. by intros [? ?].
  - simpl. rewrite Hreg. simpl. by rewrite lookup_delete_eq.
  - intros b Hb. simpl. by rewrite lookup_delete_ne.
Qed.

Lemma Account_DisableJetStream_removes_entry_witness :
  Account_JetStreamEnabled (Some 1%positive) (snd (Account_DisableJetStream 1 serverC))
  = false
  /\ fst (Account_DisableJetStream 1 (snd (Account_DisableJetStream 1 serverC)))
     = Some "jetstream not enabled for account".
Proof.
  destruct (Account_DisableJetStream_removes_entry 1%positive serverC) as (H1 & H2 & _).
  - vm_compute. reflexivity.
  - split; [exact H1 | by rewrite H2].
Defined.

(** X12: updating an enabled account to the limits it already has is a
    no-op that succeeds, provided the counters are int64 values within the
    configured maxima: the difference is the zero record, the check passes,
    and release followed by reserve restores the ledger. *)
Theorem UpdateJetStreamLimits_same_limits {MsgSet : Type}
    (a : positive) (s : Server MsgSet) (js : jetStream MsgSet) (jsa : jsAccount MsgSet) :
  a ∈ srv_registered s ->
  srv_js s = Some js ->
  js_accounts js !! a = Some jsa ->
  in_int64 (js_memReserved js) ->
  in_int64 (js_storeReserved js) ->
  js_memReserved js <= cfg_MaxMemory (js_config js) ->
  js_storeReserved js <= cfg_MaxStore (js_config js) ->
  diffCheckedLimits (jsa_limits jsa) (jsa_limits jsa) = mkLimits 0 0 0 0
  /\ UpdateJetStreamLimits a (Some (jsa_limits jsa)) s = (None, s).
Proof.
  intros Hreg Hjs Hjsa Hm Hs Hcm Hcs.
  assert (Hzero : forall x, sub64 x x = 0).
  { intros x. unfold sub64. by rewrite Z.sub_diag. }
  assert (Hdiff : diffCheckedLimits (jsa_limits jsa) (jsa_limits jsa) = mkLimits 0 0 0 0).
  { unfold diffCheckedLimits. by rewrite !Hzero. }
  split; [done|].
  unfold UpdateJetStreamLimits, lookupAccount.
  rewrite (registered_true _ _ Hreg), Hjs, Hjsa, Hdiff.
  unfold sufficientResources, add64. simpl. rewrite !Z.add_0_r, !wrap64_id by done.
  replace (Z.ltb (cfg_MaxMemory (js_config js)) (js_memReserved js)) with false
    by (symmetry; lia).
  replace (Z.ltb (cfg_MaxStore (js_config js)) (js_storeReserved js)) with false
    by (symmetry; lia).
  f_equal. destruct s as [sa sjs reg sent]. simpl in *. subst sjs.
  unfold set_js. simpl. do 2 f_equal.
  destruct js as [cfg accs m st], jsa as [l mr mu sr su dir sets]. simpl in *.
  unfold set_accounts, set_limits. simpl. rewrite insert_id by done. f_equal.
  - destruct (Z.ltb 0 (MaxMemory l)); [by apply sub64_add64_cancel | done].
  - destruct (Z.ltb 0 (MaxStore l)); [by apply sub64_add64_cancel | done].
Qed.

Lemma UpdateJetStreamLimits_same_limits_witness :
  UpdateJetStreamLimits 1
    (Some (mkLimits (1024 * 1024 * 1024) (1024 * 1024 * 1024) (-1) (-1))) serverC
  = (None, serverC).
Proof.
  apply (UpdateJetStreamLimits_same_limits 1 serverC
           (mkJetStream configGiB
              {[ 1%positive :=
                   jsAccountC (mkLimits (1024 * 1024 * 1024) (1024 * 1024 * 1024) (-1) (-1))
                     {[ "S1" := mkMsgSetC (configC "S1" (-1)) [] ]} ]}
              (1024 * 1024 * 1024) (1024 * 1024 * 1024))
           (jsAccountC (mkLimits (1024 * 1024 * 1024) (1024 * 1024 * 1024) (-1) (-1))
              {[ "S1" := mkMsgSetC (configC "S1" (-1)) [] ]})).
  - vm_compute. reflexivity.
  - reflexivity.
  - reflexivity.
  - unfold in_int64, int64_min, int64_max. simpl. lia.
  - unfold in_int64, int64_min, int64_max. simpl. lia.
  - simpl. lia.
  - simpl. lia.
Defined.

(** X13: the limit update and the disablement are all-or-nothing on every
    error path, not only on the quota check: whenever either returns an error
    (account not registered, engine absent, account not enabled, or
    insufficient resources) the server state is exactly what it was. *)
Theorem update_and_disable_fail_unchanged {MsgSet : Type}
    (a : positive) (limits : option JetStreamAccountLimits) (s : Server MsgSet) :
  (forall err, fst (UpdateJetStreamLimits a limits s) = Some err ->
     snd (UpdateJetStreamLimits a limits s) = s)
  /\ (forall err, fst (Account_DisableJetStream a s) = Some err ->
       snd (Account_DisableJetStream a s) = s).
Proof.
  split; intros err.
  - unfold UpdateJetStreamLimits. repeat case_match; simpl; done.
  - unfold Account_DisableJetStream, lookupAccount.
    destruct (negb _); [done|]. destruct (srv_js s) as [js|] eqn:Hjs; [|done].
    destruct (js_accounts js !! a); simpl; [done|]. intros _.
    by apply set_js_same.
Qed.

Lemma update_and_disable_fail_unchanged_witness :
  snd (UpdateJetStreamLimits 2 None serverC) = serverC.
Proof.
  apply (proj1 (update_and_disable_fail_unchanged 2 None serverC)
           "jetstream account not registered").
  vm_compute. reflexivity.
Defined.

(** X14: the number of enabled accounts counts the successful operations: a
    successful enablement raises it by one, a successful disablement lowers
    it by one, and a limit update never changes it. *)
Theorem JetStreamNumAccounts_counts {MsgSet : Type}
    (pathJoin : list string -> string) (accName : positive -> string)
    (a : positive) (limits : option JetStreamAccountLimits) (s : Server MsgSet) :
  (fst (Account_EnableJetStream pathJoin accName a limits s) = None ->
   JetStreamNumAccounts (snd (Account_EnableJetStream pathJoin accName a limits s))
   = JetStreamNumAccounts s + 1)
  /\ (fst (Account_DisableJetStream a s) = None ->
      JetStreamNumAccounts (snd (Account_DisableJetStream a s))
      = JetStreamNumAccounts s - 1)
  /\ JetStreamNumAccounts (snd (UpdateJetStreamLimits a limits s))
     = JetStreamNumAccounts s.
Proof.
  unfold JetStreamNumAccounts. split; [|split].
  - unfold Account_EnableJetStream.
    destruct (negb _); [done|]. destruct (srv_js s) as [js|]; [|done].
    destruct (sufficientResources _ _); [done|].
    destruct (js_accounts js !! a) eqn:Hnone; [done|]. intros _. simpl.
    rewrite map_size_insert_None by done. lia.
  - unfold Account_DisableJetStream, lookupAccount.
    destruct (negb _); [done|]. destruct (srv_js s) as [js|]; [|done].
    destruct (js_accounts js !! a) eqn:Hsome; simpl; [|done]. intros _.
    assert (Hsz : size (js_accounts js) = S (size (delete a (js_accounts js)))).
    { rewrite <- (insert_delete_id (js_accounts js) a _ Hsome) at 1.
      apply map_size_insert_None, lookup_delete_eq. }
    unfold releaseResources. simpl. lia.
  - unfold UpdateJetStreamLimits, lookupAccount.
    destruct (negb _); [done|].
    destruct (srv_js s) as [js|] eqn:Hjs; [|by cbn; rewrite Hjs].
    destruct (js_accounts js !! a) eqn:Hsome; [|by cbn; rewrite Hjs].
    destruct (sufficientResources _ _); [by cbn; rewrite Hjs|].
    cbn. rewrite map_size_insert_Some; [done | by eexists].
Qed.

Lemma JetStreamNumAccounts_counts_witness :
  JetStreamNumAccounts (snd (Account_DisableJetStream 1 serverC)) = 0.
Proof.
  change 0 with (JetStreamNumAccounts serverC - 1).
  apply (JetStreamNumAccounts_counts pathJoinC accNameC 1 None serverC).
  vm_compute. reflexivity.
Defined.

(** ** Engine enablement *)

Lemma Account_EnableJetStream_flags {MsgSet : Type}
    (pathJoin : list string -> string) (accName : positive -> string)
    (a : positive) (limits : option JetStreamAccountLimits) (s : Server MsgSet) :
  srv_standAlone (snd (Account_EnableJetStream pathJoin accName a limits s))
  = srv_standAlone s.
Proof. unfold Account_EnableJetStream. by repeat case_match. Qed.

(** X15: engine enablement installs the engine before it runs the set-up
    steps, so it can run once only: on a stand-alone server without an
    engine, whatever the first call returns (success, a set-up error, or the
    global-account error), a second call fails with "jetstream already
    enabled" and leaves the state as the first call left it. *)
Theorem Server_EnableJetStream_once {MsgSet : Type}
    (sysMem : Z) (TempDir : string) (pathJoin : list string -> string)
    (accName : positive -> string) (setupJetStream : JetStreamConfig -> option string)
    (globalAccountOnly : option positive)
    (config config2 : option JetStreamConfig) (s : Server MsgSet) :
  srv_standAlone s = true ->
  srv_js s = None ->
  Server_EnableJetStream sysMem TempDir pathJoin accName setupJetStream
    globalAccountOnly config2
    (snd (Server_EnableJetStream sysMem TempDir pathJoin accName setupJetStream
            globalAccountOnly config s))
  = (Some "jetstream already enabled",
     snd (Server_EnableJetStream sysMem TempDir pathJoin accName setupJetStream
            globalAccountOnly config s)).
Proof.
  intros Hsa Hnone.
  assert (H : exists js,
             srv_js (snd (Server_EnableJetStream sysMem TempDir pathJoin accName
                            setupJetStream globalAccountOnly config s)) = Some js
             /\ srv_standAlone (snd (Server_EnableJetStream sysMem TempDir pathJoin
                                       accName setupJetStream globalAccountOnly config s))
                = true).
  { unfold Server_EnableJetStream. rewrite Hsa, Hnone. cbn [negb].
    destruct (setupJetStream _); [by eexists|].
    destruct globalAccountOnly as [g|]; [|by eexists].
    match goal with
    | |- context [Account_EnableJetStream pathJoin accName g None ?s1] =>
        pose proof (Account_EnableJetStream_flags pathJoin accName g None s1) as Hfl;
        destruct (Account_EnableJetStream_config pathJoin accName g None s1 _ eq_refl)
          as (js1 & Hjs1 & _);
        destruct (Account_EnableJetStream pathJoin accName g None s1) as [[err|] s2]
    end; simpl in *; exists js1; by rewrite Hfl. }
  destruct H as (js & Hjs & Hst).
  unfold Server_EnableJetStream at 1. by rewrite Hst, Hjs.
Qed.

Lemma Server_EnableJetStream_once_witness :
  fst (Server_EnableJetStream (8 * 1024 ^ 3) "/tmp" pathJoinC accNameC
         (fun _ => Some "storage directory is not writable") None (Some configGiB)
         (snd (Server_EnableJetStream (8 * 1024 ^ 3) "/tmp" pathJoinC accNameC
                 (fun _ => Some "storage directory is not writable") None (Some configGiB)
                 (mkServer (MsgSet := MsgSetC) true None ∅ []))))
  = Some "jetstream already enabled".
Proof.
  rewrite (Server_EnableJetStream_once (MsgSet := MsgSetC) (8 * 1024 ^ 3) "/tmp"
             pathJoinC accNameC (fun _ => Some "storage directory is not writable") None
             (Some configGiB) (Some configGiB) (mkServer true None ∅ []));
    reflexivity.
Defined.



(** ** Admission control, continued *)

(** X17: what an accepted request looks like.  When admission control
    accepts, the configuration it hands back is the request with
    MaxObservables replaced by the account's cap, so a smaller positive cap
    asked for by the request is raised to the account's; the request had
    Replicas 1, the account had room for another set, and the request's own
    cap was non-positive or at most the account's. *)
Theorem checkLimits_accepted {MsgSet : Type}
    (jsa : jsAccount MsgSet) (config config1 : MsgSetConfig) :
  checkLimits jsa config = (None, config1) ->
  config1 = set_MaxObservables config (MaxObservables (jsa_limits jsa))
  /\ ms_Replicas config = 1
  /\ (MaxMsgSets (jsa_limits jsa) <= 0
      \/ Z.of_nat (size (jsa_msgSets jsa)) < MaxMsgSets (jsa_limits jsa))
  /\ (ms_MaxObservables config <= 0
      \/ ms_MaxObservables config <= MaxObservables (jsa_limits jsa)).
Proof.
  unfold checkLimits.
  destruct (Z.ltb_spec 0 (MaxMsgSets (jsa_limits jsa)));
    destruct (Z.leb_spec (MaxMsgSets (jsa_limits jsa))
                (Z.of_nat (size (jsa_msgSets jsa))));
    cbn [andb]; try done;
    (destruct (Z.eqb_spec (ms_Replicas config) 1); cbn [negb]; [|done]);
    (destruct (Z.ltb_spec 0 (ms_MaxObservables config));
     destruct (Z.ltb_spec (MaxObservables (jsa_limits jsa)) (ms_MaxObservables config));
     cbn [andb]; try done);
    intros Hres;
    (assert (config1 = set_MaxObservables config (MaxObservables (jsa_limits jsa)))
       by (repeat case_match; congruence));
    repeat split; try done; lia.
Qed.

Lemma checkLimits_accepted_witness :
  checkLimits (jsAccountC (mkLimits 0 0 (-1) 10) ∅) (configC "S1" 3)
  = (None, configC "S1" 10).
Proof.
  assert (H : checkLimits (jsAccountC (mkLimits 0 0 (-1) 10) ∅) (configC "S1" 3)
              = (None, snd (checkLimits (jsAccountC (mkLimits 0 0 (-1) 10) ∅)
                              (configC "S1" 3)))) by reflexivity.
  destruct (checkLimits_accepted _ _ _ H) as (Hc & _).
  rewrite H, Hc. reflexivity.
Defined.

(** X18: a rejection leaves the request's configuration as it was only in
    the first three steps.  A request rejected for insufficient memory or
    storage has MaxBytes positive and comes back with its MaxObservables
    already overwritten by the account's cap. *)
Theorem checkLimits_rejected_config {MsgSet : Type}
    (jsa : jsAccount MsgSet) (config config1 : MsgSetConfig) (err : string) :
  checkLimits jsa config = (Some err, config1) ->
  (config1 = config
   /\ (err = "maximum number of message sets reached"
       \/ err = "replicas setting of " +:+ itoa (ms_Replicas config) +:+ " not allowed"
       \/ err = "maximum observables exceeds account limit"))
  \/ (config1 = set_MaxObservables config (MaxObservables (jsa_limits jsa))
      /\ 0 < ms_MaxBytes config
      /\ ((err = "insufficient memory resources available"
           /\ ms_Storage config = MemoryStorage
           /\ MaxMemory (jsa_limits jsa)
              < add64 (jsa_memReserved jsa) (mul64 (ms_MaxBytes config) (ms_Replicas config)))
          \/ (err = "insufficient storage resources available"
              /\ ms_Storage config = FileStorage
              /\ MaxStore (jsa_limits jsa)
                 < add64 (jsa_storeReserved jsa)
                     (mul64 (ms_MaxBytes config) (ms_Replicas config))))).
Proof.
  unfold checkLimits.
  destruct (_ && _); [intros [= <- <-]; left; auto|].
  destruct (negb _); [intros [= <- <-]; left; auto|].
  destruct (_ && _); [intros [= <- <-]; left; auto|].
  cbn [ms_MaxBytes ms_Storage ms_Replicas set_MaxObservables].
  destruct (Z.ltb_spec 0 (ms_MaxBytes config)); [|done].
  destruct (ms_Storage config).
  - destruct (Z.ltb_spec (MaxMemory (jsa_limits jsa))
                (add64 (jsa_memReserved jsa)
                   (mul64 (ms_MaxBytes config) (ms_Replicas config)))); [|done].
    intros [= <- <-]. right. split; [done|]. split; [done|]. left. done.
  - destruct (Z.ltb_spec (MaxStore (jsa_limits jsa))
                (add64 (jsa_storeReserved jsa)
                   (mul64 (ms_MaxBytes config) (ms_Replicas config)))); [|done].
    intros [= <- <-]. right. split; [done|]. split; [done|]. right. done.
Qed.

Lemma checkLimits_rejected_config_witness :
  let jsa := jsAccountC (mkLimits 100 100 (-1) 10) ∅ in
  let config := mkMsgSetConfig "S1" [] 0 MemoryStorage 200 0 0 1 false 3 in
  checkLimits jsa config
  = (Some "insufficient memory resources available",
     mkMsgSetConfig "S1" [] 0 MemoryStorage 200 0 0 1 false 10).
Proof.
  intros jsa config.
  assert (H : checkLimits jsa config
              = (Some "insufficient memory resources available",
                 snd (checkLimits jsa config))) by reflexivity.
  destruct (checkLimits_rejected_config _ _ _ _ H) as [[Hc _] | [Hc _]];
    rewrite H; [|by rewrite Hc].
  vm_compute in Hc. discriminate.
Defined.

(** ** Recovery, continued *)

Section RecoveryMore.

Context {St MsgSetH ObsH ObservableConfig : Type}.
Variable pathJoin : list string -> string.
Variable comma : Z -> string.
Variable UnmarshalMsgSetConfig : string -> MsgSetConfig + string.
Variable UnmarshalObservableConfig : string -> ObservableConfig + string.
Variable AddMsgSet : MsgSetConfig -> St -> (MsgSetH + string) * St.
Variable Stats_Msgs : MsgSetH -> St -> Z.
Variable AddObservable : MsgSetH -> ObservableConfig -> St -> (ObsH + string) * St.
Variable readStoredState : ObsH -> St -> option string * St.

Local Abbreviation recover :=
  (recoverMsgSets pathJoin comma UnmarshalMsgSetConfig UnmarshalObservableConfig
     AddMsgSet Stats_Msgs AddObservable readStoredState).

Lemma unparsable_step storeDir d rest st log :
  unparsable UnmarshalMsgSetConfig d ->
  exists w, log_level w = LWarn
    /\ recover storeDir (d :: rest) st log
       = recover storeDir rest st (log ++ [w])%list.
Proof.
  intros Hd. cbn [recoverMsgSets].
  destruct (fi_metaExists (mse_meta d)) eqn:Hmeta; cbn [negb];
    [|by eexists; split; [|reflexivity]].
  destruct (fi_metaRead (mse_meta d)) as [buf|err] eqn:Hread;
    [|by eexists; split; [|reflexivity]].
  destruct (fi_sumExists (mse_meta d)) eqn:Hsum; cbn [negb];
    [|by eexists; split; [|reflexivity]].
  destruct (UnmarshalMsgSetConfig buf) as [cfg|err] eqn:Hjson;
    [|by eexists; split; [|reflexivity]].
  exfalso. destruct Hd as [H|[(e & H)|[H|(b & e & H1 & H2)]]]; try congruence.
Qed.

Lemma recover_unparsable storeDir fis :
  Forall (unparsable UnmarshalMsgSetConfig) fis ->
  forall st log, exists warnings,
    recover storeDir fis st log = (Returned, st, (log ++ warnings)%list)
    /\ List.length warnings = List.length fis
    /\ Forall isWarning warnings.
Proof.
  induction 1 as [|d rest Hd Hrest IH]; intros st log.
  - exists []. by rewrite app_nil_r.
  - destruct (unparsable_step storeDir d rest st log Hd) as (w & Hw & Hstep).
    destruct (IH st (log ++ [w])%list) as (ws & Hrun & Hlen & Hall).
    exists (w :: ws). rewrite Hstep, Hrun, <- app_assoc. simpl.
    split; [done|]. split; [by rewrite Hlen | by constructor].
Qed.


End RecoveryMore.

(** X19: directory entries that cannot be decoded (meta.inf missing or
    unreadable, meta.sum missing, or a document that does not parse) are
    skipped: over a directory holding only such entries the loop returns,
    never calls into the account state, which is left as it was, and adds
    exactly one warning per entry to the log. *)
Theorem recoverMsgSets_unparsable_skipped {St MsgSetH ObsH ObservableConfig : Type}
    (pathJoin : list string -> string) (comma : Z -> string)
    (UnmarshalMsgSetConfig : string -> MsgSetConfig + string)
    (UnmarshalObservableConfig : string -> ObservableConfig + string)
    (AddMsgSet : MsgSetConfig -> St -> (MsgSetH + string) * St)
    (Stats_Msgs : MsgSetH -> St -> Z)
    (AddObservable : MsgSetH -> ObservableConfig -> St -> (ObsH + string) * St)
    (readStoredState : ObsH -> St -> option string * St)
    (storeDir : string) (fis : list MsgSetEntry) (st : St) (log : list LogEntry) :
  Forall (unparsable UnmarshalMsgSetConfig) fis ->
  exists warnings,
    recoverMsgSets pathJoin comma UnmarshalMsgSetConfig UnmarshalObservableConfig
      AddMsgSet Stats_Msgs AddObservable readStoredState storeDir fis st log
    = (Returned, st, (log ++ warnings)%list)
    /\ List.length warnings = List.length fis
    /\ Forall isWarning warnings.
Proof. intros H. by apply recover_unparsable. Qed.

Lemma recoverMsgSets_unparsable_skipped_witness :
  exists warnings,
    recoverC [mkMsgSetEntry (mkMetaEntry "S1" true (inl "S1") false) [];
              mkMsgSetEntry (mkMetaEntry "S2" false (inr "no such file") false) []]
      (jsAccountC (mkLimits 0 0 (-1) (-1)) ∅)
    = (Returned, jsAccountC (mkLimits 0 0 (-1) (-1)) ∅, warnings)
    /\ List.length warnings = 2%nat.
Proof.
  destruct (recoverMsgSets_unparsable_skipped pathJoinC itoa UnmarshalC UnmarshalObsC
              AddMsgSetC Stats_MsgsC AddObservableC readStoredStateC "/tmp/jetstream/A1"
              [mkMsgSetEntry (mkMetaEntry "S1" true (inl "S1") false) [];
               mkMsgSetEntry (mkMetaEntry "S2" false (inr "no such file") false) []]
              (jsAccountC (mkLimits 0 0 (-1) (-1)) ∅) [])
    as (ws & Hrun & Hlen & _).
  - constructor; [right; right; left; reflexivity|].
    constructor; [left; reflexivity | constructor].
  - exists ws. split; [exact Hrun | exact Hlen].
Defined.


